(** * International Institute of Languages API: a shallow embedding

    The development follows [src/schemas.py] (the record shapes) and
    [src/main.py] (the request handlers and the seed routine).  The global
    [db] handle and the store behind it are explicit state: every handler is
    a function from a [World] to an outcome and a new [World]. *)

From Stdlib Require Import ZArith NArith QArith String Ascii List Lia.
From stdpp Require Import base gmap strings list fin_maps option.

Local Open Scope string_scope.
Local Open Scope list_scope.

(** ** Values, documents and identifiers *)

(** A store-assigned identifier ([bson.ObjectId]): twelve bytes, kept as
    the number they spell. *)
Definition ObjectId : Type := N.

(** What a document field holds.  Python floats that occur in the code are
    decimal literals; they are kept as exact rationals. *)
Inductive value : Type :=
| VNone
| VStr (s : string)
| VInt (n : Z)
| VFloat (q : Q)
| VList (l : list string).

(** What the ["_id"] key of a document holds: the [ObjectId] the store
    assigned, its string form once a handler has converted it, or [None]. *)
Inductive ident : Type :=
| IdOid (o : ObjectId)
| IdStr (s : string)
| IdNone.

(** A document (a Python [dict]): the ["_id"] key, when present, and the
    other keys. *)
Record doc : Type := Doc {
  doc_id : option ident;
  doc_fields : gmap string value
}.

Definition set_id (i : ident) (d : doc) : doc :=
  {| doc_id := Some i; doc_fields := doc_fields d |}.

(** [not d] for a dict [d]: true exactly for the empty dict. *)
Definition doc_is_empty (d : doc) : bool :=
  match doc_id d with
  | Some _ => false
  | None => bool_decide (doc_fields d = ∅)
  end.

(** *** [str] of an identifier *)

Definition hex_digit (d : N) : ascii :=
  match d with
  | 0 => "0" | 1 => "1" | 2 => "2" | 3 => "3" | 4 => "4" | 5 => "5"
  | 6 => "6" | 7 => "7" | 8 => "8" | 9 => "9" | 10 => "a" | 11 => "b"
  | 12 => "c" | 13 => "d" | 14 => "e" | _ => "f"
  end%N%char.

(** The [w] low hexadecimal digits of [x], least significant first. *)
Fixpoint hex_digits_le (w : nat) (x : N) : list ascii :=
  match w with
  | O => []
  | S w' => hex_digit (x mod 16) :: hex_digits_le w' (x / 16)
  end.

(** [str(ObjectId)]: twenty-four lower-case hexadecimal digits. *)
Definition oid_hex (o : ObjectId) : string :=
  string_of_list_ascii (rev (hex_digits_le 24 o)).

(** [str(x)] for what an ["_id"] key can hold. *)
Definition py_str (i : ident) : string :=
  match i with
  | IdOid o => oid_hex o
  | IdStr s => s
  | IdNone => "None"
  end.

(** ** Schemas ([src/schemas.py]) *)

Record Course : Type := {
  slug : string;
  title : string;
  category : string;
  short_description : string;
  description : option string;
  image_url : option string;
  icon : option string;
  duration_weeks : option Z;
  price : option Q;
  highlights : option (list string);
  syllabus : option (list string)
}.

Record Testimonial : Type := {
  t_name : string;
  course_slug : option string;
  t_message : string;
  score_or_result : option string;
  avatar_url : option string
}.

Record Enquiry : Type := {
  name : string;
  email : string;
  phone : option string;
  course_interest : option string;
  message : option string
}.

Definition dump_opt {A} (f : A -> value) (o : option A) : value :=
  match o with
  | Some a => f a
  | None => VNone
  end.

(** The records are [BaseModel]s: each serialises to a dict of all its
    declared fields, absent optional ones as [None]. *)
Class BaseModel (A : Type) : Type := { model_dump : A -> gmap string value }.

#[global] Instance Course_model : BaseModel Course := {|
  model_dump c :=
    {[ "slug" := VStr (slug c);
       "title" := VStr (title c);
       "category" := VStr (category c);
       "short_description" := VStr (short_description c);
       "description" := dump_opt VStr (description c);
       "image_url" := dump_opt VStr (image_url c);
       "icon" := dump_opt VStr (icon c);
       "duration_weeks" := dump_opt VInt (duration_weeks c);
       "price" := dump_opt VFloat (price c);
       "highlights" := dump_opt VList (highlights c);
       "syllabus" := dump_opt VList (syllabus c) ]}
|}.

#[global] Instance Testimonial_model : BaseModel Testimonial := {|
  model_dump t :=
    {[ "name" := VStr (t_name t);
       "course_slug" := dump_opt VStr (course_slug t);
       "message" := VStr (t_message t);
       "score_or_result" := dump_opt VStr (score_or_result t);
       "avatar_url" := dump_opt VStr (avatar_url t) ]}
|}.

#[global] Instance Enquiry_model : BaseModel Enquiry := {|
  model_dump e :=
    {[ "name" := VStr (name e);
       "email" := VStr (email e);
       "phone" := dump_opt VStr (phone e);
       "course_interest" := dump_opt VStr (course_interest e);
       "message" := dump_opt VStr (message e) ]}
|}.

(** ** The document store behind [db] *)

(** The state of the database the handle [db] points at.  A collection is
    the list of its documents in insertion order; [db_next] is the next
    identifier the driver hands out; [db_fault], when set, is the error
    every round trip to the server fails with (server unreachable). *)
Record Database : Type := {
  db_name : string;
  db_colls : gmap string (list doc);
  db_next : ObjectId;
  db_fault : option string
}.

(** The process state the handlers read: the module-level [db] ([None] when
    no connection was configured) and the environment variables. *)
Record World : Type := {
  db : option Database;
  environ : gmap string string
}.

Inductive exn : Type :=
| HTTPException (status_code : Z) (detail : string)
| RequestValidationError (errors : list (string * string))
| StoreUnavailable
| WriteFailure (msg : string)
| DriverError (msg : string)
| TypeError (msg : string).

Inductive outcome (A : Type) : Type :=
| Return (a : A)
| Raise (e : exn).
Arguments Return {A} a.
Arguments Raise {A} e.

(** [str(e)] for a caught exception. *)
Definition exn_str (e : exn) : string :=
  match e with
  | HTTPException _ detail => detail
  | RequestValidationError _ => "validation error"
  | StoreUnavailable => "Database not available"
  | WriteFailure msg => msg
  | DriverError msg => msg
  | TypeError msg => msg
  end.

(** The status line the framework answers with: 200 for a returned body,
    the carried code for an [HTTPException], 422 for a body that failed
    validation, 500 for any other exception. *)
Definition http_status {A} (o : outcome A) : Z :=
  match o with
  | Return _ => 200
  | Raise (HTTPException code _) => code
  | Raise (RequestValidationError _) => 422
  | Raise _ => 500
  end.

(** *** Driver operations on a connected database *)

(** The filters the code passes to the driver. *)
Inductive query : Type :=
| QAll                                  (* {} *)
| QField (field : string) (v : string)  (* {field: v} *)
| QId (o : ObjectId).                   (* {"_id": o} *)

(** Equality match of a stored field against a string: the field equals
    it, or is an array with an element equal to it. *)
Definition field_matches (stored : option value) (v : string) : bool :=
  match stored with
  | Some (VStr s) => String.eqb s v
  | Some (VList l) => existsb (String.eqb v) l
  | _ => false
  end.

Definition matches (q : query) (d : doc) : bool :=
  match q with
  | QAll => true
  | QField k v => field_matches (doc_fields d !! k) v
  | QId o =>
      match doc_id d with
      | Some (IdOid o') => N.eqb o' o
      | _ => false
      end
  end.

(** The documents of a collection; a collection that was never written to
    has none. *)
Definition coll_docs (c : Database) (coll : string) : list doc :=
  default [] (db_colls c !! coll).

Definition round_trip {A} (c : Database) (a : A) : outcome A :=
  match db_fault c with
  | Some msg => Raise (DriverError msg)
  | None => Return a
  end.

Definition count_documents (c : Database) (coll : string) (q : query) : outcome Z :=
  round_trip c (Z.of_nat (length (filter (fun d => matches q d = true) (coll_docs c coll)))).

Definition find (c : Database) (coll : string) (q : query) : outcome (list doc) :=
  round_trip c (filter (fun d => matches q d = true) (coll_docs c coll)).

Definition find_one (c : Database) (coll : string) (q : query) : outcome (option doc) :=
  round_trip c (head (filter (fun d => matches q d = true) (coll_docs c coll))).

Definition list_collection_names (c : Database) : outcome (list string) :=
  round_trip c ((map_to_list (db_colls c)).*1).

(** The database after the driver stored [d] in [coll] and used up one
    identifier. *)
Definition append_doc (c : Database) (coll : string) (d : doc) : Database :=
  {| db_name := db_name c;
     db_colls := <[coll := coll_docs c coll ++ [d]]> (db_colls c);
     db_next := N.succ (db_next c);
     db_fault := db_fault c |}.

(** [insert_one] of a document that carries no ["_id"]: the driver assigns
    the next identifier and appends the document to the collection. *)
Definition insert_one (c : Database) (coll : string) (d : doc) : outcome ObjectId * Database :=
  match db_fault c with
  | Some msg => (Raise (DriverError msg), c)
  | None =>
      let o := db_next c in
      (Return o, append_doc c coll (set_id (IdOid o) d))
  end.

(** ** Handlers as state-and-exception computations *)

Definition M (A : Type) : Type := World -> outcome A * World.

Definition ret {A} (a : A) : M A := fun w => (Return a, w).

Definition raise {A} (e : exn) : M A := fun w => (Raise e, w).

Definition bind {A B} (m : M A) (k : A -> M B) : M B :=
  fun w =>
    match m w with
    | (Return a, w') => k a w'
    | (Raise e, w') => (Raise e, w')
    end.

Notation "'do' x <- m ; k" := (bind m (fun x => k))
  (at level 10, x name, m at level 100, k at level 200).
Notation "m ;; k" := (bind m (fun _ => k))
  (at level 100, k at level 200, right associativity).

(** [for x in xs: body(x)]: stops at the first exception. *)
Fixpoint for_each {A B} (xs : list A) (body : A -> M B) : M unit :=
  match xs with
  | [] => ret tt
  | x :: xs' => body x ;; for_each xs' body
  end.

Definition set_db (c : Database) (w : World) : World :=
  {| db := Some c; environ := environ w |}.

(** Reading the global [db]. *)
Definition get_db : M (option Database) := fun w => (Return (db w), w).

(** A driver call [db[...].op(...)] that only reads.  On [db = None] the
    subscript itself raises. *)
Definition db_read {A} (op : Database -> outcome A) : M A :=
  fun w =>
    match db w with
    | None => (Raise (TypeError "'NoneType' object is not subscriptable"), w)
    | Some c => (op c, w)
    end.

(** Truth value of what [os.getenv] returns. *)
Definition truthy (o : option string) : bool :=
  match o with
  | Some s => negb (String.eqb s EmptyString)
  | None => false
  end.

(** ** The gateway ([database.create_document], [database.get_documents]) *)

(** Modelled from the spec: [create_document] of the [database] module, whose
    source is missing.  "Serializes the validated record (dropping any
    client-supplied identifier) and inserts it; returns the newly assigned
    identifier as an opaque string.  Fails with StoreUnavailable if no live
    connection exists, or WriteFailure on a store-level error." *)
Definition create_document {A} `{BaseModel A} (coll : string) (record : A) : M string :=
  fun w =>
    match db w with
    | None => (Raise StoreUnavailable, w)
    | Some c =>
        let d := {| doc_id := None; doc_fields := delete "_id" (model_dump record) |} in
        match insert_one c coll d with
        | (Return o, c') => (Return (oid_hex o), set_db c' w)
        | (Raise e, c') => (Raise (WriteFailure (exn_str e)), set_db c' w)
        end
    end.

(** The identifier of a returned record as a string field. *)
Definition normalize_id (d : doc) : doc :=
  match doc_id d with
  | Some i => set_id (IdStr (py_str i)) d
  | None => d
  end.

Definition apply_limit (limit : option Z) (docs : list doc) : list doc :=
  match limit with
  | None => docs
  | Some n => take (Z.to_nat n) docs
  end.

(** Modelled from the spec: [get_documents] of the [database] module, whose
    source is missing.  "Returns matching records in the store's natural
    order (no implied sort), each with its identifier normalized to a string
    field; unlimited unless limit given.  Fails with StoreUnavailable if
    disconnected; returns an empty sequence (never an error) when zero
    documents match." *)
Definition get_documents (coll : string) (q : query) (limit : option Z) : M (list doc) :=
  fun w =>
    match db w with
    | None => (Raise StoreUnavailable, w)
    | Some c =>
        match find c coll q with
        | Return docs => (Return (normalize_id <$> apply_limit limit docs), w)
        | Raise e => (Raise e, w)
        end
    end.

(** ** [GET /test] *)

Section Diagnostic.

(** What reading [db.name] and calling [db.list_collection_names()] give
    on a handle; either may raise. *)
Variable probe_name : Database -> outcome string.
Variable probe_collections : Database -> outcome (list string).

Definition initial_response : gmap string value :=
  {[ "backend" := VStr "✅ Running";
     "database" := VStr "❌ Not Available";
     "database_url" := VStr "❌ Not Set";
     "database_name" := VStr "❌ Not Set";
     "collections" := VList [] ]}.

(** The body of the outer [try]: how it ended, and the [response] dict as
    it stood at that point. *)
Definition test_database_try (w : World) : outcome unit * gmap string value :=
  let response := initial_response in
  match db w with
  | Some c =>
      let response := <["database" := VStr "✅ Connected"]> response in
      let response :=
        <["database_url" :=
            VStr (if truthy (environ w !! "DATABASE_URL") then "✅ Set" else "❌ Not Set")]>
          response in
      match probe_name c with
      | Raise e => (Raise e, response)
      | Return n =>
          let response := <["database_name" := VStr n]> response in
          match probe_collections c with
          | Return collections =>
              (Return tt, <["collections" := VList collections]> response)
          | Raise e =>
              (Return tt, <["collections_error" := VStr (exn_str e)]> response)
          end
      end
  | None => (Return tt, <["database" := VStr "❌ Not Available"]> response)
  end.

Definition test_database_with : M (gmap string value) :=
  fun w =>
    match test_database_try w with
    | (Return _, response) => (Return response, w)
    | (Raise e, response) => (Return (<["error" := VStr (exn_str e)]> response), w)
    end.

End Diagnostic.

(** The handler on the store model: [db.name] is a plain attribute. *)
Definition test_database : M (gmap string value) :=
  test_database_with (fun c => Return (db_name c)) list_collection_names.

(** ** Seeding *)

Definition ielts_coaching : Course :=
  {| slug := "ielts-coaching";
     title := "IELTS Coaching";
     category := "Exam Prep";
     short_description := "Master IELTS with expert trainers and personalized feedback.";
     description := Some "A structured IELTS program covering Listening, Reading, Writing, and Speaking with mock tests and band-improvement strategies.";
     image_url := Some "https://images.unsplash.com/photo-1517520287167-4bbf64a00d66?q=80&w=1600&auto=format&fit=crop";
     icon := Some "GraduationCap";
     duration_weeks := Some 8%Z;
     price := Some (299 # 1);
     highlights := Some ["Band-focused curriculum"; "Weekly mock tests"; "Speaking rooms and feedback"];
     syllabus := Some ["Diagnostic test"; "Module-wise mastery"; "Full-length mocks"] |}.

Definition pte_preparation : Course :=
  {| slug := "pte-preparation";
     title := "PTE Preparation";
     category := "Exam Prep";
     short_description := "Ace PTE with strategy-driven sessions and practice labs.";
     description := Some "Learn the PTE patterns, time management and scoring mechanics with practice on real-like tests.";
     image_url := Some "https://images.unsplash.com/photo-1523050854058-8df90110c9f1?q=80&w=1600&auto=format&fit=crop";
     icon := Some "BookOpen";
     duration_weeks := Some 6%Z;
     price := Some (249 # 1);
     highlights := Some ["AI-scored practice"; "Templates and hacks"; "Doubt-clearing clinics"];
     syllabus := Some ["Speaking & Writing"; "Reading"; "Listening"] |}.

Definition foreign_languages : Course :=
  {| slug := "foreign-languages";
     title := "Foreign Languages";
     category := "Language";
     short_description := "Learn German, French, Spanish, Japanese and more.";
     description := Some "Level-based language learning with immersive activities and conversation practice.";
     image_url := Some "https://images.unsplash.com/photo-1546410531-bb4caa6b424d?q=80&w=1600&auto=format&fit=crop";
     icon := Some "Globe2";
     duration_weeks := Some 12%Z;
     price := Some (399 # 1);
     highlights := Some ["A1–C1 levels"; "Native mentors"; "Cultural immersion"];
     syllabus := Some ["Basics"; "Grammar & Vocabulary"; "Conversation"] |}.

(** The bounds the schema puts on a [Course]: [duration_weeks] is at least
    1 and [price] at least 0, when given.  Constructing a [Course] checks
    them. *)
Definition course_ok (c : Course) : bool :=
  match duration_weeks c with
  | Some n => (1 <=? n)%Z
  | None => true
  end
  && match price c with
     | Some q => Qle_bool 0 q
     | None => true
     end.

Definition sample_courses : list Course :=
  [ielts_coaching; pte_preparation; foreign_languages].

Definition testimonials : list Testimonial :=
  [ {| t_name := "Aarav S.";
       course_slug := Some "ielts-coaching";
       t_message := "Scored an overall 8.0! The mocks and feedback were game-changers.";
       score_or_result := Some "IELTS 8.0";
       avatar_url := None |};
    {| t_name := "Meera T.";
       course_slug := Some "pte-preparation";
       t_message := "I loved the labs. Cracked PTE in the first attempt.";
       score_or_result := Some "PTE 79+";
       avatar_url := None |} ].

Definition seed_if_empty : M unit :=
  do d <- get_db;
  match d with
  | None => ret tt
  | Some _ =>
      (do n <- db_read (fun c => count_documents c "course" QAll);
       if (n =? 0)%Z
       then for_each sample_courses (fun c => create_document "course" c)
       else ret tt) ;;
      (do n <- db_read (fun c => count_documents c "testimonial" QAll);
       if (n =? 0)%Z
       then for_each testimonials (fun t => create_document "testimonial" t)
       else ret tt)
  end.

(** ** Courses and testimonials *)

(** [d["_id"] = str(d["_id"]) if "_id" in d else None], the statement
    [list_courses] and [get_course] both apply to a document. *)
Definition id_to_str (d : doc) : doc :=
  set_id (match doc_id d with
          | Some i => IdStr (py_str i)
          | None => IdNone
          end) d.

(** A [{"items": docs}] body. *)
Record Listing : Type := { items : list doc }.

Definition list_courses : M Listing :=
  do docs <- get_documents "course" QAll None;
  let docs := map id_to_str docs in
  ret {| items := docs |}.

Definition get_course (slug : string) : M doc :=
  do d <- get_db;
  match d with
  | None => raise (HTTPException 500 "Database not available")
  | Some _ =>
      do found <- db_read (fun c => find_one c "course" (QField "slug" slug));
      match found with
      | None => raise (HTTPException 404 "Course not found")
      | Some doc =>
          if doc_is_empty doc
          then raise (HTTPException 404 "Course not found")
          else ret (id_to_str doc)
      end
  end.

Definition list_testimonials (limit : option Z) : M Listing :=
  do docs <- get_documents "testimonial" QAll limit;
  let docs := map (fun d => set_id (IdStr (py_str (default IdNone (doc_id d)))) d) docs in
  ret {| items := docs |}.

(** [GET /api/testimonials]: the query parameter [limit] is 10 when the
    request does not supply it. *)
Definition api_testimonials (supplied : option Z) : M Listing :=
  list_testimonials (Some (default 10%Z supplied)).

(** ** Enquiries *)

Definition submit_enquiry (payload : Enquiry) : M (gmap string value) :=
  do enquiry_id <- create_document "enquiry" payload;
  ret {[ "status" := VStr "ok"; "id" := VStr enquiry_id ]}.

(** A parsed JSON value of a request body. *)
#[local] Set Warnings "-register-all".
Inductive json : Type :=
| JNull
| JBool (b : bool)
| JNum (q : Q)
| JStr (s : string)
| JArr (l : list json)
| JObj (l : list (string * json)).

Section EnquiryBoundary.

(** The e-mail syntax check of the validation library behind [EmailStr]:
    the accepted address in normal form, or [None] for a malformed one. *)
Variable validate_email : string -> option string.

Definition verr : Type := (string * string)%type.

(** A required [str] field. *)
Definition req_str (body : gmap string json) (k : string) : list verr + string :=
  match body !! k with
  | None => inl [(k, "missing")]
  | Some (JStr s) => inr s
  | Some _ => inl [(k, "string_type")]
  end.

(** An [Optional[str] = None] field. *)
Definition opt_str (body : gmap string json) (k : string) : list verr + option string :=
  match body !! k with
  | None | Some JNull => inr None
  | Some (JStr s) => inr (Some s)
  | Some _ => inl [(k, "string_type")]
  end.

(** A required [EmailStr] field. *)
Definition req_email (body : gmap string json) (k : string) : list verr + string :=
  match body !! k with
  | None => inl [(k, "missing")]
  | Some (JStr s) =>
      match validate_email s with
      | Some e => inr e
      | None => inl [(k, "value_error")]
      end
  | Some _ => inl [(k, "string_type")]
  end.

Definition errs_of {A} (r : list verr + A) : list verr :=
  match r with
  | inl es => es
  | inr _ => []
  end.

(** Validation of a request body against [Enquiry]: every offending
    field is reported; keys the model does not declare are not looked
    at (the model sets no [extra] policy). *)
Definition validate_enquiry (body : gmap string json) : list verr + Enquiry :=
  let n := req_str body "name" in
  let e := req_email body "email" in
  let p := opt_str body "phone" in
  let c := opt_str body "course_interest" in
  let m := opt_str body "message" in
  match n, e, p, c, m with
  | inr n, inr e, inr p, inr c, inr m =>
      inr {| name := n; email := e; phone := p; course_interest := c; message := m |}
  | _, _, _, _, _ =>
      inl (errs_of n ++ errs_of e ++ errs_of p ++ errs_of c ++ errs_of m)
  end.

(** [POST /api/enquiries]: the framework validates the body and calls the
    handler only with a valid [Enquiry]. *)
Definition post_enquiries (body : gmap string json) : M (gmap string value) :=
  match validate_enquiry body with
  | inl errors => raise (RequestValidationError errors)
  | inr payload => submit_enquiry payload
  end.

End EnquiryBoundary.

(** A small concrete syntax check, used to run the boundary on examples:
    an address is accepted, unchanged, when an "@" occurs after its first
    character and is not its last. *)
Fixpoint has_at_inside (s : string) : bool :=
  match s with
  | String "@" (String _ _) => true
  | String _ rest => has_at_inside rest
  | EmptyString => false
  end.

Definition simple_email (s : string) : option string :=
  match s with
  | String "@" _ => None
  | _ => if has_at_inside s then Some s else None
  end.

(** ** What the gateway leaves in the store *)

(** The document [create_document] stores for [record] under identifier
    [o]. *)
Definition stored {A} `{BaseModel A} (o : ObjectId) (record : A) : doc :=
  {| doc_id := Some (IdOid o); doc_fields := delete "_id" (model_dump record) |}.

(** The documents stored for [records], created one after the other from
    identifier [first] on. *)
Definition stored_as {A} `{BaseModel A} (first : ObjectId) (records : list A) : list doc :=
  imap (fun i r => stored (first + N.of_nat i)%N r) records.

(** The document [find_one] picks for a slug: the first match in the
    collection's order. *)
Definition first_course (c : Database) (s : string) : option doc :=
  head (filter (fun d => matches (QField "slug" s) d = true) (coll_docs c "course")).

(** A connection whose server answers. *)
Definition live (w : World) (c : Database) : Prop :=
  db w = Some c /\ db_fault c = None.

(** ** Store invariant *)

(** Every stored document carries an identifier the driver handed out
    earlier. *)
Definition ids_assigned (c : Database) : Prop :=
  forall coll d, d ∈ coll_docs c coll ->
    exists o, doc_id d = Some (IdOid o) /\ (o < db_next c)%N.

Definition empty_db (n : string) : Database :=
  {| db_name := n; db_colls := ∅; db_next := 0%N; db_fault := None |}.

Definition fresh_world : World :=
  {| db := Some (empty_db "iil"); environ := ∅ |}.

(** The keys the [Enquiry] model declares. *)
Definition enquiry_fields : list string :=
  ["name"; "email"; "phone"; "course_interest"; "message"].

(** ** Example requests *)

Definition asha_body : gmap string json :=
  {[ "name" := JStr "Asha"; "email" := JStr "asha@example.com" ]}.

Definition asha : Enquiry :=
  {| name := "Asha"; email := "asha@example.com"; phone := None;
     course_interest := None; message := None |}.

(** The same request with a key the model does not declare. *)
Definition asha_body_extra : gmap string json :=
  <["nickname" := JStr "ash"]> asha_body.

Definition bad_email_body : gmap string json :=
  {[ "name" := JStr "Asha"; "email" := JStr "not-an-email" ]}.

(** ** Example stores *)

(** A store that holds the PTE course only. *)
Definition pte_only : Database :=
  append_doc (empty_db "iil") "course" (stored 0%N pte_preparation).

(** A store that holds one testimonial and no course. *)
Definition one_testimonial : Database :=
  append_doc (empty_db "iil") "testimonial"
    (stored 0%N {| t_name := "Ravi K."; course_slug := None; t_message := "Great classes.";
                   score_or_result := None; avatar_url := None |}).

(** A connection to a server that does not answer. *)
Definition unreachable_db : Database :=
  {| db_name := "iil"; db_colls := ∅; db_next := 0%N;
     db_fault := Some "localhost:27017: connection refused" |}.

(** ** The remaining endpoints and the application *)

(** [GET /] *)
Definition root : M (gmap string value) :=
  ret {[ "message" := VStr "International Institute of Languages API running" ]}.

(** [GET /schema] *)
Definition schema_collections : list string :=
  ["course"; "testimonial"; "blogpost"; "enquiry"; "instituteinfo"].

Definition schema_info : M (gmap string value) :=
  ret {[ "collections" := VList schema_collections ]}.

(** The startup hook. *)
Definition on_startup : M unit := seed_if_empty.

(** A request the application routes, with its path and query values
    already parsed to their declared types. *)
Inductive request : Type :=
| GetRoot
| GetTest
| GetCourses
| GetCourse (slug : string)
| GetTestimonials (limit : option Z)
| PostEnquiries (body : gmap string json)
| GetSchema.

(** What a handler returns: a JSON object, one document, or a listing. *)
Inductive reply : Type :=
| RObject (o : gmap string value)
| RDoc (d : doc)
| RItems (l : Listing).

Definition is_get (r : request) : bool :=
  match r with
  | PostEnquiries _ => false
  | _ => true
  end.

Section Application.

Variable validate_email : string -> option string.

(** The route table of [app]. *)
Definition serve (r : request) : M reply :=
  match r with
  | GetRoot => do o <- root; ret (RObject o)
  | GetTest => do o <- test_database; ret (RObject o)
  | GetCourses => do l <- list_courses; ret (RItems l)
  | GetCourse slug => do d <- get_course slug; ret (RDoc d)
  | GetTestimonials limit => do l <- api_testimonials limit; ret (RItems l)
  | PostEnquiries body => do o <- post_enquiries validate_email body; ret (RObject o)
  | GetSchema => do o <- schema_info; ret (RObject o)
  end.

(** Requests served one after the other; an exception ends its request,
    not the application. *)
Fixpoint serve_all (rs : list request) (w : World) : list (outcome reply) * World :=
  match rs with
  | [] => ([], w)
  | r :: rs' =>
      let '(o, w1) := serve r w in
      let '(os, w2) := serve_all rs' w1 in
      (o :: os, w2)
  end.

(** A request that stores an enquiry on a live connection: a post whose
    body passes validation. *)
Definition accepted (r : request) : bool :=
  match r with
  | PostEnquiries body =>
      match validate_enquiry validate_email body with
      | inr _ => true
      | inl _ => false
      end
  | _ => false
  end.

Definition accepted_posts (rs : list request) : nat :=
  length (List.filter accepted rs).

End Application.

(** An optional field of a body is acceptable when it is absent, [null] or
    a string. *)
Definition optional_ok (j : option json) : bool :=
  match j with
  | None | Some JNull | Some (JStr _) => true
  | Some _ => false
  end.

(** [w'] is [w] after documents were appended: same environment, same
    handle (or none), and every collection keeps its documents as a
    prefix. *)
Definition grown (w w' : World) : Prop :=
  environ w' = environ w
  /\ match db w, db w' with
     | None, None => True
     | Some c, Some c' =>
         db_name c' = db_name c
         /\ db_fault c' = db_fault c
         /\ (db_next c <= db_next c')%N
         /\ (forall coll, coll_docs c coll `prefix_of` coll_docs c' coll)
     | _, _ => False
     end.

(** Whether the value a body gives for a declared key is one the model
    takes: a string for [name], a string the syntax check accepts for
    [email], and for the three optional keys a string, [null] or nothing. *)
Definition field_passes (validate_email : string -> option string)
    (body : gmap string json) (k : string) : bool :=
  if String.eqb k "name" then
    match body !! k with
    | Some (JStr _) => true
    | _ => false
    end
  else if String.eqb k "email" then
    match body !! k with
    | Some (JStr s) => bool_decide (is_Some (validate_email s))
    | _ => false
    end
  else optional_ok (body !! k).

(** Whether the handle is there and its server answers. *)
Definition is_live (w : World) : bool :=
  match db w with
  | Some c =>
      match db_fault c with
      | None => true
      | Some _ => false
      end
  | None => false
  end.

(** The store invariant, for the world. *)
Definition ids_ok (w : World) : Prop :=
  forall c, db w = Some c -> ids_assigned c.

(** Every collection that exists is one [GET /schema] names. *)
Definition within_schema (w : World) : Prop :=
  forall c coll, db w = Some c -> is_Some (db_colls c !! coll) -> coll ∈ schema_collections.

(** * Properties *)

(** Closes a case of the body analysis: contradictory or repeated facts
    about what a probe gave are resolved, and the lookup is computed. *)
Ltac probe_case :=
  intros; simplify_eq;
  repeat match goal with
         | H1 : ?x = Return _, H2 : ?x = Raise _ |- _ => congruence
         | H1 : ?x = Return _, H2 : ?x = Return _ |- _ =>
             rewrite H1 in H2; simplify_eq
         | H1 : ?x = Raise _, H2 : ?x = Raise _ |- _ =>
             rewrite H1 in H2; simplify_eq
         end;
  try done.

(** ** The store *)

Lemma set_db_same (w : World) (c : Database) : db w = Some c -> set_db c w = w.
Proof. destruct w as [d e]; simpl; intros ->; reflexivity. Qed.

Lemma set_db_set_db (c c' : Database) (w : World) : set_db c' (set_db c w) = set_db c' w.
Proof. reflexivity. Qed.

Lemma coll_docs_append_eq (c : Database) (coll : string) (d : doc) :
  coll_docs (append_doc c coll d) coll = coll_docs c coll ++ [d].
Proof. unfold coll_docs at 1, append_doc; simpl. by rewrite lookup_insert_eq. Qed.

Lemma colls_append_ne (c : Database) (coll other : string) (d : doc) :
  other <> coll -> db_colls (append_doc c coll d) !! other = db_colls c !! other.
Proof. intros Hne. unfold append_doc; simpl. by rewrite lookup_insert_ne. Qed.

Lemma coll_docs_append_ne (c : Database) (coll other : string) (d : doc) :
  other <> coll -> coll_docs (append_doc c coll d) other = coll_docs c other.
Proof. intros Hne. unfold coll_docs. by rewrite colls_append_ne. Qed.

Lemma filter_all (l : list doc) : filter (fun d => matches QAll d = true) l = l.
Proof.
  induction l as [|d l IH]; [reflexivity|].
  rewrite filter_cons_True by reflexivity. by rewrite IH.
Qed.

Lemma count_all_live (c : Database) (coll : string) :
  db_fault c = None ->
  count_documents c coll QAll = Return (Z.of_nat (length (coll_docs c coll))).
Proof. intros Hf. unfold count_documents, round_trip. by rewrite Hf, filter_all. Qed.

Lemma count_cons_nonzero (d : doc) (l : list doc) :
  (Z.of_nat (length (d :: l)) =? 0)%Z = false.
Proof. reflexivity. Qed.

(** ** The gateway on a live connection *)

Section Gateway.
Context {A : Type} `{BaseModel A}.

Lemma create_document_live (coll : string) (r : A) (w : World) (c : Database) :
  live w c ->
  create_document coll r w =
    (Return (oid_hex (db_next c)),
     set_db (append_doc c coll (stored (db_next c) r)) w).
Proof.
  intros [Hdb Hf]. unfold create_document, insert_one. rewrite Hdb, Hf. reflexivity.
Qed.

Lemma append_live (coll : string) (d : doc) (w : World) (c : Database) :
  live w c -> live (set_db (append_doc c coll d) w) (append_doc c coll d).
Proof. intros [Hdb Hf]. split; [reflexivity | exact Hf]. Qed.

(** Creating the records of a list, in order, on a live connection. *)
Lemma for_each_create_live (coll : string) (rs : list A) (w : World) (c : Database) :
  live w c ->
  exists c',
    for_each rs (fun r => create_document coll r) w = (Return tt, set_db c' w)
    /\ live (set_db c' w) c'
    /\ db_name c' = db_name c
    /\ db_next c' = (db_next c + N.of_nat (length rs))%N
    /\ coll_docs c' coll = coll_docs c coll ++ stored_as (db_next c) rs
    /\ (forall other, other <> coll -> db_colls c' !! other = db_colls c !! other).
Proof.
  revert w c. induction rs as [|r rs IH]; intros w c Hl.
  - exists c. pose proof Hl as [Hdb Hf]. simpl. unfold ret.
    rewrite (set_db_same w c Hdb). repeat split; try done.
    + lia.
    + unfold stored_as. simpl. by rewrite app_nil_r.
  - destruct (IH _ _ (append_live coll (stored (db_next c) r) w c Hl))
      as (c' & Hrun & Hl' & Hn & Hnext & Hdocs & Hother).
    exists c'. simpl. unfold bind. rewrite (create_document_live coll r w c Hl).
    rewrite Hrun. rewrite set_db_set_db in *. repeat split; try done.
    + apply Hl'.
    + rewrite Hnext. simpl. lia.
    + rewrite Hdocs, coll_docs_append_eq. unfold stored_as. simpl.
      rewrite <- app_assoc. simpl. rewrite N.add_0_r. do 2 f_equal.
      apply imap_ext. intros i x _. simpl. f_equal. lia.
    + intros other Hne. rewrite Hother by done. by apply colls_append_ne.
Qed.

End Gateway.

(** ** Seeding *)

(** The sample courses pass the schema's bounds, so building them in
    [seed_if_empty] does not raise. *)
Lemma sample_courses_ok : forallb course_ok sample_courses = true.
Proof. reflexivity. Qed.

Section Gate.
Context {A : Type} `{BaseModel A}.

(** One gated block of [seed_if_empty]: count, then insert when the
    count is zero. *)
Lemma gate_live (coll : string) (rs : list A) (w : World) (c : Database) :
  live w c ->
  exists c',
    (do n <- db_read (fun c => count_documents c coll QAll);
     if (n =? 0)%Z
     then for_each rs (fun r => create_document coll r)
     else ret tt) w = (Return tt, set_db c' w)
    /\ live (set_db c' w) c'
    /\ db_name c' = db_name c
    /\ db_next c' = match coll_docs c coll with
                    | [] => (db_next c + N.of_nat (length rs))%N
                    | _ => db_next c
                    end
    /\ coll_docs c' coll = match coll_docs c coll with
                           | [] => stored_as (db_next c) rs
                           | l => l
                           end
    /\ (forall other, other <> coll -> db_colls c' !! other = db_colls c !! other).
Proof.
  intros Hl. pose proof Hl as [Hdb Hf].
  unfold bind, db_read. rewrite Hdb, (count_all_live c coll Hf).
  destruct (coll_docs c coll) as [|d l] eqn:Hdocs.
  - simpl. destruct (for_each_create_live coll rs w c Hl)
      as (c' & Hrun & Hl' & Hn & Hnext & Hd & Hother).
    exists c'. rewrite Hdocs in Hd. simpl in Hd.
    repeat split; try done; apply Hl'.
  - exists c. simpl. unfold ret. rewrite (set_db_same w c Hdb).
    by repeat split.
Qed.

Lemma gate_fault (coll : string) (rs : list A) (w : World) (c : Database) (msg : string) :
  db w = Some c -> db_fault c = Some msg ->
  (do n <- db_read (fun c => count_documents c coll QAll);
   if (n =? 0)%Z
   then for_each rs (fun r => create_document coll r)
   else ret tt) w = (Raise (DriverError msg), w).
Proof.
  intros Hdb Hf. unfold bind, db_read, count_documents, round_trip.
  by rewrite Hdb, Hf.
Qed.

End Gate.

Lemma seed_none (w : World) : db w = None -> seed_if_empty w = (Return tt, w).
Proof. intros Hdb. unfold seed_if_empty, bind, get_db. by rewrite Hdb. Qed.

Lemma seed_fault (w : World) (c : Database) (msg : string) :
  db w = Some c -> db_fault c = Some msg ->
  seed_if_empty w = (Raise (DriverError msg), w).
Proof.
  intros Hdb Hf. unfold seed_if_empty. unfold bind at 1, get_db. rewrite Hdb.
  unfold bind at 1. by rewrite (gate_fault "course" sample_courses w c msg Hdb Hf).
Qed.

(** What [seed_if_empty] does on a live connection, collection by
    collection. *)
Lemma seed_live (w : World) (c : Database) :
  live w c ->
  exists c',
    seed_if_empty w = (Return tt, set_db c' w)
    /\ live (set_db c' w) c'
    /\ db_name c' = db_name c
    /\ coll_docs c' "course" =
         match coll_docs c "course" with
         | [] => stored_as (db_next c) sample_courses
         | l => l
         end
    /\ coll_docs c' "testimonial" =
         match coll_docs c "testimonial" with
         | [] => stored_as (match coll_docs c "course" with
                            | [] => db_next c + 3
                            | _ => db_next c
                            end)%N testimonials
         | l => l
         end
    /\ (forall other, other <> "course" -> other <> "testimonial" ->
          db_colls c' !! other = db_colls c !! other).
Proof.
  intros Hl. pose proof Hl as [Hdb Hf].
  destruct (gate_live "course" sample_courses w c Hl)
    as (c1 & Hrun1 & Hl1 & Hn1 & Hnext1 & Hd1 & Ho1).
  destruct (gate_live "testimonial" testimonials (set_db c1 w) c1 Hl1)
    as (c2 & Hrun2 & Hl2 & Hn2 & Hnext2 & Hd2 & Ho2).
  rewrite set_db_set_db in *.
  exists c2. split; [|split; [|split; [|split; [|split]]]].
  - unfold seed_if_empty. unfold bind at 1, get_db. rewrite Hdb.
    unfold bind at 1. rewrite Hrun1. exact Hrun2.
  - exact Hl2.
  - congruence.
  - unfold coll_docs at 1. rewrite Ho2 by done. exact Hd1.
  - rewrite Hd2. unfold coll_docs at 1 3. rewrite Ho1 by done.
    rewrite Hnext1. simpl. reflexivity.
  - intros other H1 H2. rewrite Ho2, Ho1 by done. reflexivity.
Qed.

(** With both collections populated the routine changes nothing. *)
Lemma seed_noop (w : World) (c : Database) :
  live w c ->
  coll_docs c "course" <> [] -> coll_docs c "testimonial" <> [] ->
  seed_if_empty w = (Return tt, w).
Proof.
  intros Hl Hc Ht. pose proof Hl as [Hdb Hf].
  destruct (coll_docs c "course") as [|d l] eqn:Ec; [done|].
  destruct (coll_docs c "testimonial") as [|d' l'] eqn:Et; [done|].
  unfold seed_if_empty, bind, get_db, db_read, ret.
  rewrite Hdb. cbn beta iota.
  rewrite Hdb, (count_all_live c _ Hf), Ec, count_cons_nonzero.
  rewrite Hdb, (count_all_live c _ Hf), Et, count_cons_nonzero. reflexivity.
Qed.

Lemma stored_as_length {A} `{BaseModel A} (o : ObjectId) (rs : list A) :
  length (stored_as o rs) = length rs.
Proof. unfold stored_as. apply length_imap. Qed.

Lemma seed_populates (w : World) (c : Database) :
  live w c ->
  exists c',
    seed_if_empty w = (Return tt, set_db c' w)
    /\ live (set_db c' w) c'
    /\ coll_docs c' "course" <> []
    /\ coll_docs c' "testimonial" <> [].
Proof.
  intros Hl.
  destruct (seed_live w c Hl) as (c' & Hrun & Hl' & _ & Hc & Ht & _).
  exists c'. repeat split; try done; try apply Hl'.
  - rewrite Hc. destruct (coll_docs c "course"); discriminate.
  - rewrite Ht. destruct (coll_docs c "testimonial"); [|discriminate].
    destruct (coll_docs c "course"); discriminate.
Qed.

(** C1.  Invoking [seed_if_empty] a second time, right after a first
    invocation from any state of the world, changes nothing: the state after
    the second invocation is the state after the first.  On a live
    connection this is because both counts are non-zero once the first
    invocation has run. *)
Theorem seed_if_empty_idempotent (w : World) :
  let w1 := snd (seed_if_empty w) in
  snd (seed_if_empty w1) = w1
  /\ (forall c, live w c ->
        exists c1 n m,
          live w1 c1
          /\ count_documents c1 "course" QAll = Return n /\ n <> 0%Z
          /\ count_documents c1 "testimonial" QAll = Return m /\ m <> 0%Z).
Proof.
  cbv zeta. split.
  - destruct (db w) as [c|] eqn:Hdb.
    + destruct (db_fault c) as [msg|] eqn:Hf.
      * rewrite (seed_fault w c msg Hdb Hf). simpl.
        by rewrite (seed_fault w c msg Hdb Hf).
      * destruct (seed_populates w c (conj Hdb Hf)) as (c' & Hrun & Hl' & Hc & Ht).
        rewrite Hrun. simpl.
        by rewrite (seed_noop _ c' Hl' Hc Ht).
    + rewrite (seed_none w Hdb). simpl. by rewrite (seed_none w Hdb).
  - intros c Hl.
    destruct (seed_populates w c Hl) as (c' & Hrun & Hl' & Hc & Ht).
    rewrite Hrun. simpl.
    exists c', (Z.of_nat (length (coll_docs c' "course"))),
      (Z.of_nat (length (coll_docs c' "testimonial"))).
    pose proof Hl' as [_ Hf'].
    rewrite !(count_all_live c' _ Hf').
    repeat split; try done; try apply Hl'.
    + destruct (coll_docs c' "course"); [done | simpl; lia].
    + destruct (coll_docs c' "testimonial"); [done | simpl; lia].
Qed.

Lemma seed_if_empty_idempotent_witness :
  exists c1 n m,
    live (snd (seed_if_empty fresh_world)) c1
    /\ count_documents c1 "course" QAll = Return n /\ n <> 0%Z
    /\ count_documents c1 "testimonial" QAll = Return m /\ m <> 0%Z.
Proof.
  apply (proj2 (seed_if_empty_idempotent fresh_world) (empty_db "iil")).
  split; reflexivity.
Defined.

(** ** Listing *)

Lemma get_documents_live (coll : string) (limit : option Z) (w : World) (c : Database) :
  live w c ->
  get_documents coll QAll limit w =
    (Return (normalize_id <$> apply_limit limit (coll_docs c coll)), w).
Proof.
  intros [Hdb Hf]. unfold get_documents, find, round_trip.
  by rewrite Hdb, Hf, filter_all.
Qed.

Lemma list_courses_live (w : World) (c : Database) :
  live w c ->
  exists l,
    list_courses w = (Return l, w)
    /\ length (items l) = length (coll_docs c "course").
Proof.
  intros Hl. unfold list_courses, bind.
  rewrite (get_documents_live "course" None w c Hl). unfold ret.
  eexists. split; [reflexivity|]. simpl.
  by rewrite length_map, length_fmap.
Qed.

(** C2.  On a live connection whose [course] and [testimonial] collections
    are both empty, [seed_if_empty] leaves exactly three documents in
    [course], with slugs ielts-coaching, pte-preparation and
    foreign-languages in that order, and exactly two in [testimonial];
    [list_courses] then returns three items. *)
Theorem seed_fresh_store (w : World) (c : Database) :
  live w c ->
  coll_docs c "course" = [] ->
  coll_docs c "testimonial" = [] ->
  exists c' l,
    seed_if_empty w = (Return tt, set_db c' w)
    /\ coll_docs c' "course" = stored_as (db_next c) sample_courses
    /\ length (coll_docs c' "course") = 3
    /\ (fun d => doc_fields d !! "slug") <$> coll_docs c' "course" =
         [Some (VStr "ielts-coaching"); Some (VStr "pte-preparation");
          Some (VStr "foreign-languages")]
    /\ coll_docs c' "testimonial" = stored_as (db_next c + 3)%N testimonials
    /\ length (coll_docs c' "testimonial") = 2
    /\ list_courses (set_db c' w) = (Return l, set_db c' w)
    /\ length (items l) = 3.
Proof.
  intros Hl Hc Ht.
  destruct (seed_live w c Hl) as (c' & Hrun & Hl' & _ & Hc' & Ht' & _).
  rewrite Hc in Hc', Ht'. rewrite Ht in Ht'.
  destruct (list_courses_live _ c' Hl') as (l & Hlist & Hlen).
  exists c', l. rewrite Hc', Ht' in *.
  repeat split; try done.
Qed.

Lemma seed_fresh_store_witness :
  exists c' l,
    seed_if_empty fresh_world = (Return tt, set_db c' fresh_world)
    /\ coll_docs c' "course" = stored_as 0%N sample_courses
    /\ length (coll_docs c' "course") = 3
    /\ (fun d => doc_fields d !! "slug") <$> coll_docs c' "course" =
         [Some (VStr "ielts-coaching"); Some (VStr "pte-preparation");
          Some (VStr "foreign-languages")]
    /\ coll_docs c' "testimonial" = stored_as 3%N testimonials
    /\ length (coll_docs c' "testimonial") = 2
    /\ list_courses (set_db c' fresh_world) = (Return l, set_db c' fresh_world)
    /\ length (items l) = 3.
Proof.
  apply (seed_fresh_store fresh_world (empty_db "iil")).
  - split; reflexivity.
  - reflexivity.
  - reflexivity.
Defined.

(** C10, as the code has it.  [seed_if_empty] writes only to [course] and
    [testimonial], and only by appending; the two collections are gated one
    by one; with [db = None] it returns at once and the world is as it
    was.  With a handle whose server does not answer it does not return at
    once: the first [count_documents] raises the driver's error; the world
    is as it was. *)
Theorem seed_if_empty_frame (w : World) :
  (db w = None -> seed_if_empty w = (Return tt, w))
  /\ (forall c, db w = Some c ->
        exists c',
          snd (seed_if_empty w) = set_db c' w
          /\ (forall other, other <> "course" -> other <> "testimonial" ->
                db_colls c' !! other = db_colls c !! other)
          /\ coll_docs c "course" `prefix_of` coll_docs c' "course"
          /\ coll_docs c "testimonial" `prefix_of` coll_docs c' "testimonial")
  /\ (forall c, live w c ->
        coll_docs c "course" = [] -> coll_docs c "testimonial" <> [] ->
        exists c',
          seed_if_empty w = (Return tt, set_db c' w)
          /\ coll_docs c' "course" = stored_as (db_next c) sample_courses
          /\ coll_docs c' "testimonial" = coll_docs c "testimonial")
  /\ (forall c, live w c ->
        coll_docs c "course" <> [] -> coll_docs c "testimonial" = [] ->
        exists c',
          seed_if_empty w = (Return tt, set_db c' w)
          /\ coll_docs c' "course" = coll_docs c "course"
          /\ coll_docs c' "testimonial" = stored_as (db_next c) testimonials)
  /\ (forall c msg, db w = Some c -> db_fault c = Some msg ->
        seed_if_empty w = (Raise (DriverError msg), w)).
Proof.
  split; [apply seed_none|]. split; [|split; [|split]].
  - intros c Hdb. destruct (db_fault c) as [msg|] eqn:Hf.
    + exists c. rewrite (seed_fault w c msg Hdb Hf). simpl.
      rewrite (set_db_same w c Hdb). by repeat split.
    + destruct (seed_live w c (conj Hdb Hf)) as (c' & Hrun & _ & _ & Hc & Ht & Ho).
      exists c'. rewrite Hrun. simpl. split; [done|]. split; [exact Ho|].
      rewrite Hc, Ht. split.
      * destruct (coll_docs c "course"); [apply prefix_nil | done].
      * destruct (coll_docs c "testimonial"); [apply prefix_nil | done].
  - intros c Hl Hc Ht.
    destruct (seed_live w c Hl) as (c' & Hrun & _ & _ & Hc' & Ht' & _).
    exists c'. rewrite Hc in Hc'. split; [done|]. split; [done|].
    rewrite Ht'. by destruct (coll_docs c "testimonial").
  - intros c Hl Hc Ht.
    destruct (seed_live w c Hl) as (c' & Hrun & _ & _ & Hc' & Ht' & _).
    exists c'. rewrite Ht in Ht'. split; [done|]. split.
    + rewrite Hc'. by destruct (coll_docs c "course").
    + rewrite Ht'. by destruct (coll_docs c "course").
  - intros c msg Hdb Hf. exact (seed_fault w c msg Hdb Hf).
Qed.

(** C10, as the claim states it, fails in its last clause: with a handle
    whose server does not answer there is no live connection, yet
    [seed_if_empty] does not return; it raises from [count_documents]. *)
Lemma seed_unreachable_raises :
  (forall c, ~ live (set_db unreachable_db fresh_world) c)
  /\ seed_if_empty (set_db unreachable_db fresh_world) =
       (Raise (DriverError "localhost:27017: connection refused"),
        set_db unreachable_db fresh_world)
  /\ fst (seed_if_empty (set_db unreachable_db fresh_world)) <> Return tt.
Proof.
  split.
  - intros c [Hdb Hf]. simpl in Hdb. injection Hdb as <-. discriminate.
  - rewrite (seed_fault (set_db unreachable_db fresh_world) unreachable_db
               "localhost:27017: connection refused" eq_refl eq_refl).
    split; [reflexivity | discriminate].
Qed.

Lemma seed_if_empty_frame_witness :
  seed_if_empty {| db := None; environ := ∅ |} =
    (Return tt, {| db := None; environ := ∅ |})
  /\ exists c',
       seed_if_empty (set_db one_testimonial fresh_world) =
         (Return tt, set_db c' (set_db one_testimonial fresh_world))
       /\ coll_docs c' "course" = stored_as 1%N sample_courses
       /\ coll_docs c' "testimonial" = coll_docs one_testimonial "testimonial".
Proof.
  split.
  - apply (proj1 (seed_if_empty_frame {| db := None; environ := ∅ |})). reflexivity.
  - apply (proj1 (proj2 (proj2 (seed_if_empty_frame (set_db one_testimonial fresh_world))))
             one_testimonial).
    + split; reflexivity.
    + reflexivity.
    + discriminate.
Defined.

(** ** Fetching one course *)

Lemma head_filter_None (P : doc -> bool) (l : list doc) :
  head (filter (fun d => P d = true) l) = None <-> (forall d, d ∈ l -> P d = false).
Proof.
  induction l as [|x l IH]; simpl.
  - split; [intros _ d Hd; by apply elem_of_nil in Hd | done].
  - destruct (P x) eqn:Hx.
    + rewrite filter_cons_True by done. simpl. split; [done|].
      intros Hall. specialize (Hall x (list_elem_of_here _ _)). congruence.
    + rewrite filter_cons_False by congruence. rewrite IH. split.
      * intros Hall d Hd. apply elem_of_cons in Hd as [->|Hd]; auto.
      * intros Hall d Hd. apply Hall. by apply list_elem_of_further.
Qed.

Lemma head_filter_Some (P : doc -> bool) (l : list doc) (d : doc) :
  head (filter (fun d => P d = true) l) = Some d -> P d = true.
Proof.
  intros Hh. apply head_Some_elem_of in Hh.
  apply list_elem_of_filter in Hh. tauto.
Qed.

Lemma slug_match_not_empty (s : string) (d : doc) :
  matches (QField "slug" s) d = true -> doc_is_empty d = false.
Proof.
  unfold matches, field_matches, doc_is_empty. intros Hm.
  destruct (doc_id d); [done|].
  apply bool_decide_eq_false. intros Hempty. rewrite Hempty, lookup_empty in Hm.
  discriminate.
Qed.

Lemma get_course_none (s : string) (w : World) :
  db w = None ->
  get_course s w = (Raise (HTTPException 500 "Database not available"), w).
Proof. intros Hdb. unfold get_course, bind, get_db. by rewrite Hdb. Qed.

Lemma get_course_fault (s : string) (w : World) (c : Database) (msg : string) :
  db w = Some c -> db_fault c = Some msg ->
  get_course s w = (Raise (DriverError msg), w).
Proof.
  intros Hdb Hf. unfold get_course, bind, get_db, db_read, find_one, round_trip.
  rewrite Hdb. cbn beta iota. by rewrite Hdb, Hf.
Qed.

Lemma get_course_live (s : string) (w : World) (c : Database) :
  live w c ->
  get_course s w =
    match first_course c s with
    | None => (Raise (HTTPException 404 "Course not found"), w)
    | Some d => (Return (id_to_str d), w)
    end.
Proof.
  intros [Hdb Hf]. unfold get_course, bind, get_db, db_read, find_one, round_trip.
  rewrite Hdb. cbn beta iota. rewrite Hdb, Hf. fold (first_course c s).
  destruct (first_course c s) as [d|] eqn:Hfirst; [|reflexivity].
  apply head_filter_Some in Hfirst.
  by rewrite (slug_match_not_empty s d Hfirst).
Qed.

(** C3.  [get_course] raises [HTTPException 500 "Database not available"]
    exactly when [db] is [None]; it raises [HTTPException 404] exactly when
    the connection is live and no document of [course] matches the slug;
    the status is 500 exactly when there is no live connection; on a live
    connection with a match it returns the first matching document, its
    fields untouched and its ["_id"] replaced by the string form.  The
    world is never changed. *)
Theorem get_course_outcomes (s : string) (w : World) :
  (fst (get_course s w) = Raise (HTTPException 500 "Database not available")
     <-> db w = None)
  /\ (fst (get_course s w) = Raise (HTTPException 404 "Course not found")
        <-> exists c, live w c /\
              forall d, d ∈ coll_docs c "course" -> matches (QField "slug" s) d = false)
  /\ (http_status (fst (get_course s w)) = 404%Z
        <-> fst (get_course s w) = Raise (HTTPException 404 "Course not found"))
  /\ (http_status (fst (get_course s w)) = 500%Z <-> forall c, ~ live w c)
  /\ (forall c d, live w c -> first_course c s = Some d ->
        exists d',
          get_course s w = (Return d', w)
          /\ doc_fields d' = doc_fields d
          /\ doc_id d' = Some (match doc_id d with
                               | Some i => IdStr (py_str i)
                               | None => IdNone
                               end)
          /\ matches (QField "slug" s) d = true)
  /\ snd (get_course s w) = w.
Proof.
  destruct (db w) as [c|] eqn:Hdb.
  - destruct (db_fault c) as [msg|] eqn:Hf.
    + rewrite (get_course_fault s w c msg Hdb Hf). simpl.
      split; [done|]. split; [|split; [done|]; split; [|split; [|done]]].
      * split; [done|]. intros (c' & [Hdb' Hf'] & _). congruence.
      * split; [|done]. intros _ c' [Hdb' Hf']. congruence.
      * intros c' d [Hdb' Hf']. congruence.
    + assert (Hl : live w c) by done.
      rewrite (get_course_live s w c Hl).
      destruct (first_course c s) as [d|] eqn:Hfirst; simpl.
      * split; [done|]. split; [|split; [done|]; split; [|split; [|done]]].
        -- split; [done|]. intros (c' & [Hdb' Hf'] & Hall).
           assert (c' = c) as -> by congruence.
           assert (first_course c s = None) as Hn
             by (apply (head_filter_None (matches (QField "slug" s))); exact Hall).
           congruence.
        -- split; [done|]. intros Hdead. destruct (Hdead c Hl).
        -- intros c' d0 [Hdb' _] Hd0. assert (c' = c) as -> by congruence.
           rewrite Hfirst in Hd0. injection Hd0 as <-.
           exists (id_to_str d). repeat split.
           apply (head_filter_Some _ _ _ Hfirst).
      * split; [done|]. split; [|split; [done|]; split; [|split; [|done]]].
        -- split; [|done]. intros _. exists c. split; [done|].
           apply (head_filter_None (matches (QField "slug" s))). exact Hfirst.
        -- split; [done|]. intros Hdead. destruct (Hdead c Hl).
        -- intros c' d0 [Hdb' _] Hd0. assert (c' = c) as -> by congruence.
           congruence.
  - rewrite (get_course_none s w Hdb). simpl.
    split; [done|]. split; [|split; [done|]; split; [|split; [|done]]].
    + split; [done|]. intros (c' & [Hdb' _] & _). congruence.
    + split; [|done]. intros _ c' [Hdb' _]. congruence.
    + intros c' d [Hdb' _]. congruence.
Qed.

Lemma get_course_outcomes_witness :
  exists d',
    get_course "pte-preparation" (set_db pte_only fresh_world) =
      (Return d', set_db pte_only fresh_world)
    /\ doc_fields d' !! "title" = Some (VStr "PTE Preparation")
    /\ doc_id d' = Some (IdStr "000000000000000000000000").
Proof.
  destruct (proj1 (proj2 (proj2 (proj2 (proj2
              (get_course_outcomes "pte-preparation" (set_db pte_only fresh_world))))))
              pte_only (stored 0%N pte_preparation))
    as (d' & Hrun & Hfields & Hid & _).
  - split; reflexivity.
  - reflexivity.
  - exists d'. split; [exact Hrun|]. rewrite Hfields, Hid. split; reflexivity.
Defined.

(** C9.  After [seed_if_empty] ran on a live connection whose [course]
    collection was empty, [get_course "ielts-coaching"] returns a record
    with title "IELTS Coaching", [duration_weeks] 8 and price 299.0. *)
Theorem get_course_ielts_after_seed (w : World) (c : Database) :
  live w c ->
  coll_docs c "course" = [] ->
  exists d w',
    (seed_if_empty ;; get_course "ielts-coaching") w = (Return d, w')
    /\ doc_fields d !! "slug" = Some (VStr "ielts-coaching")
    /\ doc_fields d !! "title" = Some (VStr "IELTS Coaching")
    /\ doc_fields d !! "duration_weeks" = Some (VInt 8)
    /\ doc_fields d !! "price" = Some (VFloat (299 # 1))
    /\ doc_id d = Some (IdStr (oid_hex (db_next c))).
Proof.
  intros Hl Hc.
  destruct (seed_live w c Hl) as (c' & Hrun & Hl' & _ & Hc' & _).
  rewrite Hc in Hc'.
  exists (id_to_str (stored (db_next c) ielts_coaching)), (set_db c' w).
  split.
  - unfold bind. rewrite Hrun, (get_course_live _ _ c' Hl').
    unfold first_course. rewrite Hc'. unfold stored_as. simpl.
    rewrite N.add_0_r. reflexivity.
  - repeat split.
Qed.

Lemma get_course_ielts_after_seed_witness :
  exists d w',
    (seed_if_empty ;; get_course "ielts-coaching") fresh_world = (Return d, w')
    /\ doc_fields d !! "slug" = Some (VStr "ielts-coaching")
    /\ doc_fields d !! "title" = Some (VStr "IELTS Coaching")
    /\ doc_fields d !! "duration_weeks" = Some (VInt 8)
    /\ doc_fields d !! "price" = Some (VFloat (299 # 1))
    /\ doc_id d = Some (IdStr (oid_hex 0%N)).
Proof.
  apply (get_course_ielts_after_seed fresh_world (empty_db "iil")).
  - split; reflexivity.
  - reflexivity.
Defined.

(** ** Testimonials *)

Lemma apply_limit_length (n : Z) (docs : list doc) :
  length (apply_limit (Some n) docs) = min (Z.to_nat n) (length docs).
Proof. simpl. apply length_take. Qed.

Lemma list_testimonials_live (limit : option Z) (w : World) (c : Database) :
  live w c ->
  exists l,
    list_testimonials limit w = (Return l, w)
    /\ length (items l) = length (apply_limit limit (coll_docs c "testimonial")).
Proof.
  intros Hl. unfold list_testimonials, bind.
  rewrite (get_documents_live "testimonial" limit w c Hl). unfold ret.
  eexists. split; [reflexivity|]. simpl.
  by rewrite length_map, length_fmap.
Qed.

Lemma list_testimonials_dead (limit : option Z) (w : World) :
  (forall c, ~ live w c) ->
  exists e, list_testimonials limit w = (Raise e, w).
Proof.
  intros Hdead. unfold list_testimonials, bind, get_documents, find, round_trip.
  destruct (db w) as [c|] eqn:Hdb; [|by eexists].
  destruct (db_fault c) as [msg|] eqn:Hf; [by eexists|].
  destruct (Hdead c). by split.
Qed.

(** C8.  [GET /api/testimonials] returns at most [limit] items, where
    [limit] is 10 when the request supplies none: on a live connection it
    returns the first [limit] testimonials in store order (none for a
    negative [limit]), and it returns nothing longer whenever it returns.
    With two testimonials seeded, [limit = 1] gives exactly one item. *)
Theorem testimonials_limit (supplied : option Z) (w : World) :
  (forall l w', api_testimonials supplied w = (Return l, w') ->
     (Z.of_nat (length (items l)) <= Z.max 0 (default 10 supplied))%Z)
  /\ (forall c, live w c ->
        exists l,
          api_testimonials supplied w = (Return l, w)
          /\ length (items l) =
               min (Z.to_nat (default 10%Z supplied)) (length (coll_docs c "testimonial")))
  /\ (forall c, live w c -> coll_docs c "testimonial" = [] ->
        exists l c1,
          (seed_if_empty ;; api_testimonials (Some 1%Z)) w = (Return l, set_db c1 w)
          /\ length (coll_docs c1 "testimonial") = 2
          /\ length (items l) = 1).
Proof.
  assert (Hlive : forall c, live w c ->
            exists l,
              api_testimonials supplied w = (Return l, w)
              /\ length (items l) =
                   min (Z.to_nat (default 10%Z supplied)) (length (coll_docs c "testimonial"))).
  { intros c Hl. unfold api_testimonials.
    destruct (list_testimonials_live (Some (default 10%Z supplied)) w c Hl)
      as (l & Hrun & Hlen).
    exists l. split; [exact Hrun|]. by rewrite Hlen, apply_limit_length. }
  split; [|split].
  - intros l w' Hrun.
    destruct (db w) as [c|] eqn:Hdb.
    + destruct (db_fault c) as [msg|] eqn:Hf.
      * destruct (list_testimonials_dead (Some (default 10%Z supplied)) w) as [e He].
        { intros c' [Hdb' Hf']. congruence. }
        unfold api_testimonials in Hrun. congruence.
      * destruct (Hlive c (conj Hdb Hf)) as (l0 & Hrun0 & Hlen).
        assert (l0 = l) as -> by congruence. rewrite Hlen. lia.
    + destruct (list_testimonials_dead (Some (default 10%Z supplied)) w) as [e He].
      { intros c' [Hdb' _]. congruence. }
      unfold api_testimonials in Hrun. congruence.
  - exact Hlive.
  - intros c Hl Ht.
    destruct (seed_live w c Hl) as (c1 & Hrun & Hl1 & _ & _ & Ht1 & _).
    rewrite Ht in Ht1.
    destruct (list_testimonials_live (Some 1%Z) _ c1 Hl1) as (l & Hlist & Hlen).
    exists l, c1. unfold bind, api_testimonials. rewrite Hrun. simpl.
    split; [exact Hlist|]. rewrite Hlen, apply_limit_length, Ht1, stored_as_length.
    split; reflexivity.
Qed.

Lemma testimonials_limit_witness :
  exists l c1,
    (seed_if_empty ;; api_testimonials (Some 1%Z)) fresh_world =
      (Return l, set_db c1 fresh_world)
    /\ length (coll_docs c1 "testimonial") = 2
    /\ length (items l) = 1.
Proof.
  apply (proj2 (proj2 (testimonials_limit None fresh_world)) (empty_db "iil")).
  - split; reflexivity.
  - reflexivity.
Defined.

(** ** The diagnostic endpoint *)

(** C7, as the code has it.  [GET /test] always returns a body, with
    status 200 and the world untouched, whatever reading [db.name] or
    listing the collections does.  What ["database"] says follows the test
    [db is not None] alone: "Not Available" with [db = None], "Connected"
    with any handle, be its server answering or not.  An exception from
    listing the collections ends up in ["collections_error"], any other
    one in ["error"]. *)
Theorem test_database_total
    (probe_name : Database -> outcome string)
    (probe_collections : Database -> outcome (list string))
    (w : World) :
  exists body,
    test_database_with probe_name probe_collections w = (Return body, w)
    /\ http_status (fst (test_database_with probe_name probe_collections w)) = 200%Z
    /\ body !! "backend" = Some (VStr "✅ Running")
    /\ (db w = None -> body !! "database" = Some (VStr "❌ Not Available"))
    /\ (forall c, db w = Some c -> body !! "database" = Some (VStr "✅ Connected"))
    /\ (forall c e, db w = Some c -> probe_name c = Raise e ->
          body !! "error" = Some (VStr (exn_str e)))
    /\ (forall c n e, db w = Some c -> probe_name c = Return n ->
          probe_collections c = Raise e ->
          body !! "collections_error" = Some (VStr (exn_str e))
          /\ body !! "error" = None)
    /\ (forall c n names, db w = Some c -> probe_name c = Return n ->
          probe_collections c = Return names ->
          body !! "database" = Some (VStr "✅ Connected")
          /\ body !! "database_name" = Some (VStr n)
          /\ body !! "collections" = Some (VList names)).
Proof.
  unfold test_database_with, test_database_try.
  destruct (db w) as [c|] eqn:Hdb.
  - destruct (probe_name c) as [n|e] eqn:Hn.
    + destruct (probe_collections c) as [names|e] eqn:Hc.
      * eexists. split; [reflexivity|]. simpl.
        repeat split; probe_case.
      * eexists. split; [reflexivity|]. simpl.
        repeat split; probe_case.
    + eexists. split; [reflexivity|]. simpl.
      repeat split; probe_case.
  - eexists. split; [reflexivity|]. simpl.
    repeat split; probe_case.
Qed.

Lemma test_database_total_witness :
  exists body,
    test_database {| db := None; environ := ∅ |} =
      (Return body, {| db := None; environ := ∅ |})
    /\ body !! "database" = Some (VStr "❌ Not Available").
Proof.
  destruct (test_database_total (fun c => Return (db_name c)) list_collection_names
              {| db := None; environ := ∅ |})
    as (body & Hrun & _ & _ & Hnone & _).
  exists body. split; [exact Hrun|]. apply Hnone. reflexivity.
Defined.

(** On the store model: an unreachable server is reported in the body. *)
Lemma test_database_unreachable (w : World) (c : Database) (msg : string) :
  db w = Some c -> db_fault c = Some msg ->
  exists body,
    test_database w = (Return body, w)
    /\ body !! "database" = Some (VStr "✅ Connected")
    /\ body !! "collections_error" = Some (VStr msg).
Proof.
  intros Hdb Hf.
  unfold test_database, test_database_with, test_database_try,
    list_collection_names, round_trip.
  rewrite Hdb, Hf. eexists. split; [reflexivity|]. split; reflexivity.
Qed.

Example test_database_connection_refused :
  exists body,
    test_database (set_db unreachable_db fresh_world) =
      (Return body, set_db unreachable_db fresh_world)
    /\ body !! "database" = Some (VStr "✅ Connected")
    /\ body !! "collections_error" = Some (VStr "localhost:27017: connection refused").
Proof. by apply (test_database_unreachable _ unreachable_db). Qed.

(** C7, as the claim states it, fails: with a handle whose server does
    not answer there is no live connection, yet the body says
    "Connected", not "Not Available". *)
Lemma test_database_unreachable_says_connected :
  (forall c, ~ live (set_db unreachable_db fresh_world) c)
  /\ exists body,
       test_database (set_db unreachable_db fresh_world) =
         (Return body, set_db unreachable_db fresh_world)
       /\ body !! "database" = Some (VStr "✅ Connected")
       /\ body !! "database" <> Some (VStr "❌ Not Available").
Proof.
  split.
  - intros c [Hdb Hf]. simpl in Hdb. injection Hdb as <-. discriminate.
  - destruct (test_database_unreachable (set_db unreachable_db fresh_world)
                unreachable_db "localhost:27017: connection refused" eq_refl eq_refl)
      as (body & Hrun & Hdatabase & _).
    exists body. split; [exact Hrun|]. split; [exact Hdatabase|].
    rewrite Hdatabase. intros Heq. vm_compute in Heq. discriminate.
Qed.

(** ** Identifiers *)

Lemma hex_digits_le_length (w : nat) (x : N) : length (hex_digits_le w x) = w.
Proof. revert x. induction w as [|w IH]; intros x; simpl; [done | by rewrite IH]. Qed.

Lemma string_of_list_ascii_length (l : list ascii) :
  String.length (string_of_list_ascii l) = length l.
Proof. induction l as [|a l IH]; simpl; [done | by rewrite IH]. Qed.

Lemma oid_hex_length (o : ObjectId) : String.length (oid_hex o) = 24.
Proof.
  unfold oid_hex.
  by rewrite string_of_list_ascii_length, length_rev, hex_digits_le_length.
Qed.

Lemma oid_hex_nonempty (o : ObjectId) : oid_hex o <> EmptyString.
Proof.
  intros Heq. pose proof (oid_hex_length o) as Hlen. rewrite Heq in Hlen. discriminate.
Qed.

Lemma ids_assigned_empty (n : string) : ids_assigned (empty_db n).
Proof.
  intros coll d Hd. unfold coll_docs, empty_db in Hd. simpl in Hd.
  rewrite lookup_empty in Hd. by apply elem_of_nil in Hd.
Qed.

(** Storing a record keeps the invariant. *)
Lemma ids_assigned_append {A} `{BaseModel A} (c : Database) (coll : string) (r : A) :
  ids_assigned c -> ids_assigned (append_doc c coll (stored (db_next c) r)).
Proof.
  intros Hinv coll' d Hd.
  destruct (decide (coll' = coll)) as [->|Hne].
  - rewrite coll_docs_append_eq in Hd. apply elem_of_app in Hd as [Hd|Hd].
    + destruct (Hinv _ _ Hd) as (o & Hid & Hlt). exists o. simpl. split; [done | lia].
    + apply list_elem_of_singleton in Hd as ->. exists (db_next c). simpl. split; [done | lia].
  - rewrite coll_docs_append_ne in Hd by done.
    destruct (Hinv _ _ Hd) as (o & Hid & Hlt). exists o. simpl. split; [done | lia].
Qed.

(** No stored document answers to the identifier that is handed out next. *)
Lemma next_id_unused (c : Database) (coll : string) :
  ids_assigned c ->
  filter (fun d => matches (QId (db_next c)) d = true) (coll_docs c coll) = [].
Proof.
  intros Hinv.
  assert (Hall : forall d, d ∈ coll_docs c coll -> matches (QId (db_next c)) d = false).
  { intros d Hd. destruct (Hinv _ _ Hd) as (o & Hid & Hlt).
    unfold matches. rewrite Hid. apply N.eqb_neq. lia. }
  induction (coll_docs c coll) as [|d l IH]; [done|].
  rewrite filter_cons_False.
  - apply IH. intros d' Hd'. apply Hall. by apply list_elem_of_further.
  - rewrite (Hall d (list_elem_of_here _ _)). discriminate.
Qed.

Lemma find_one_inserted {A} `{BaseModel A} (c : Database) (coll : string) (r : A) :
  db_fault c = None -> ids_assigned c ->
  find_one (append_doc c coll (stored (db_next c) r)) coll (QId (db_next c)) =
    Return (Some (stored (db_next c) r)).
Proof.
  intros Hf Hinv. unfold find_one, round_trip.
  change (db_fault (append_doc c coll (stored (db_next c) r))) with (db_fault c).
  rewrite Hf, coll_docs_append_eq, list.filter_app, (next_id_unused c coll Hinv).
  rewrite filter_cons_True; [done|].
  simpl. by rewrite N.eqb_refl.
Qed.

Lemma enquiry_dump_no_id (e : Enquiry) : delete "_id" (model_dump e) = model_dump e.
Proof. apply delete_id. reflexivity. Qed.

(** ** Enquiries *)

Section EnquiryProperties.

Variable validate_email : string -> option string.

(** What a body that passed validation looked like. *)
Lemma validate_enquiry_sound (body : gmap string json) (payload : Enquiry) :
  validate_enquiry validate_email body = inr payload ->
  body !! "name" = Some (JStr (name payload))
  /\ exists s, body !! "email" = Some (JStr s)
               /\ validate_email s = Some (email payload).
Proof.
  unfold validate_enquiry, req_str, req_email, opt_str. intros Hv.
  destruct (body !! "name") as [[| | |nm| |]|]; try discriminate;
    destruct (body !! "email") as [[| | |addr| |]|]; try discriminate;
    destruct (validate_email addr) eqn:Haddr; try discriminate;
    destruct (body !! "phone") as [[]|]; try discriminate;
    destruct (body !! "course_interest") as [[]|]; try discriminate;
    destruct (body !! "message") as [[]|]; try discriminate;
    simplify_eq; simpl; eauto.
Qed.

(** C4.  For a body that passes validation, on a live connection of a
    store whose identifiers were all handed out by the driver,
    [POST /api/enquiries] returns [{"status": "ok", "id": id}] with [id]
    the non-empty string form of an identifier [o]; looking [o] up in
    [enquiry] gives a document that carries [o] and whose other keys are
    exactly the payload's. *)
Theorem submit_enquiry_stored
    (body : gmap string json) (payload : Enquiry) (w : World) (c : Database) :
  validate_enquiry validate_email body = inr payload ->
  live w c ->
  ids_assigned c ->
  exists o c' d,
    post_enquiries validate_email body w =
      (Return {[ "status" := VStr "ok"; "id" := VStr (oid_hex o) ]}, set_db c' w)
    /\ oid_hex o <> EmptyString
    /\ find_one c' "enquiry" (QId o) = Return (Some d)
    /\ doc_id d = Some (IdOid o)
    /\ doc_fields d = model_dump payload
    /\ ids_assigned c'.
Proof.
  intros Hv Hl Hinv. pose proof Hl as [Hdb Hf].
  exists (db_next c), (append_doc c "enquiry" (stored (db_next c) payload)),
    (stored (db_next c) payload).
  split; [|split; [|split; [|split; [|split]]]].
  - unfold post_enquiries. rewrite Hv. unfold submit_enquiry, bind.
    by rewrite (create_document_live "enquiry" payload w c Hl).
  - apply oid_hex_nonempty.
  - by apply find_one_inserted.
  - reflexivity.
  - apply enquiry_dump_no_id.
  - by apply ids_assigned_append.
Qed.

(** C5.  A body whose ["email"] is not an address the syntax check
    accepts is refused with a validation error (status 422) that names
    the [email] field, and the world is left as it was. *)
Theorem malformed_email_rejected (body : gmap string json) (w : World) :
  (forall s, body !! "email" = Some (JStr s) -> validate_email s = None) ->
  exists errors rule,
    post_enquiries validate_email body w = (Raise (RequestValidationError errors), w)
    /\ ("email", rule) ∈ errors
    /\ http_status (fst (post_enquiries validate_email body w)) = 422%Z
    /\ (400 <= http_status (fst (post_enquiries validate_email body w)) < 500)%Z.
Proof.
  intros Hbad.
  assert (He : exists rule, req_email validate_email body "email" = inl [("email", rule)]).
  { unfold req_email.
    destruct (body !! "email") as [[| | |s| |]|] eqn:Hb; try by eexists.
    rewrite (Hbad s eq_refl). by eexists. }
  destruct He as [rule He].
  assert (Hv : exists errors,
             validate_enquiry validate_email body = inl errors
             /\ ("email", rule) ∈ errors).
  { unfold validate_enquiry. rewrite He.
    destruct (req_str body "name"); simpl;
      (eexists; split; [reflexivity|]);
      rewrite ?elem_of_app, ?elem_of_cons; tauto. }
  destruct Hv as (errors & Hv & Hin).
  exists errors, rule. unfold post_enquiries. rewrite Hv. simpl.
  repeat split; try done. 
Qed.

Lemma lookup_declared (body : gmap string json) (k field : string) (v : json) :
  k ∉ enquiry_fields -> field ∈ enquiry_fields ->
  <[k := v]> body !! field = body !! field.
Proof.
  intros Hk Hfield. apply lookup_insert_ne. intros ->. contradiction.
Qed.

(** C6, as the code has it.  A key the [Enquiry] model does not declare
    makes no difference to validation: the body is accepted or refused,
    and the enquiry stored, as if the key were not there. *)
Theorem unknown_field_ignored (body : gmap string json) (k : string) (v : json) :
  k ∉ enquiry_fields ->
  validate_enquiry validate_email (<[k := v]> body) = validate_enquiry validate_email body
  /\ post_enquiries validate_email (<[k := v]> body) = post_enquiries validate_email body.
Proof.
  intros Hk.
  assert (Hv : validate_enquiry validate_email (<[k := v]> body) =
               validate_enquiry validate_email body).
  { unfold validate_enquiry, req_str, req_email, opt_str.
    rewrite !(lookup_declared body k _ v Hk); [done | | | | |];
      unfold enquiry_fields; set_solver. }
  split; [exact Hv|]. unfold post_enquiries. by rewrite Hv.
Qed.

End EnquiryProperties.

Lemma nickname_undeclared : "nickname" ∉ enquiry_fields.
Proof.
  unfold enquiry_fields. rewrite !not_elem_of_cons.
  repeat split; try discriminate. apply not_elem_of_nil.
Qed.

Lemma submit_enquiry_stored_witness :
  exists o c' d,
    post_enquiries simple_email asha_body fresh_world =
      (Return {[ "status" := VStr "ok"; "id" := VStr (oid_hex o) ]}, set_db c' fresh_world)
    /\ oid_hex o <> EmptyString
    /\ find_one c' "enquiry" (QId o) = Return (Some d)
    /\ doc_id d = Some (IdOid o)
    /\ doc_fields d = model_dump asha
    /\ ids_assigned c'.
Proof.
  apply (submit_enquiry_stored simple_email asha_body asha fresh_world (empty_db "iil")).
  - reflexivity.
  - split; reflexivity.
  - apply ids_assigned_empty.
Defined.

Lemma malformed_email_rejected_witness :
  exists errors rule,
    post_enquiries simple_email bad_email_body fresh_world =
      (Raise (RequestValidationError errors), fresh_world)
    /\ ("email", rule) ∈ errors
    /\ http_status (fst (post_enquiries simple_email bad_email_body fresh_world)) = 422%Z
    /\ (400 <= http_status (fst (post_enquiries simple_email bad_email_body fresh_world)) < 500)%Z.
Proof.
  apply (malformed_email_rejected simple_email bad_email_body fresh_world).
  intros s Hs. vm_compute in Hs. injection Hs as <-. reflexivity.
Defined.

Lemma unknown_field_ignored_witness :
  validate_enquiry simple_email asha_body_extra = validate_enquiry simple_email asha_body
  /\ post_enquiries simple_email asha_body_extra = post_enquiries simple_email asha_body.
Proof.
  apply (unknown_field_ignored simple_email asha_body "nickname" (JStr "ash")).
  exact nickname_undeclared.
Defined.

(** C6, as the claim states it, fails: a body with the undeclared key
    ["nickname"] is not refused; it validates to the same [Enquiry] as the
    body without the key, and the enquiry is stored. *)
Lemma unknown_field_not_rejected :
  ("nickname" ∉ enquiry_fields)
  /\ asha_body_extra !! "nickname" = Some (JStr "ash")
  /\ ~ (exists errors, validate_enquiry simple_email asha_body_extra = inl errors)
  /\ validate_enquiry simple_email asha_body_extra = inr asha
  /\ fst (post_enquiries simple_email asha_body_extra fresh_world) =
       Return {[ "status" := VStr "ok"; "id" := VStr (oid_hex 0%N) ]}.
Proof.
  split; [exact nickname_undeclared|].
  split; [reflexivity|].
  split; [intros [errors Herr]; vm_compute in Herr; discriminate|].
  split; reflexivity.
Qed.

(** * Further properties of the handlers *)

(** ** Startup *)

(** The startup hook ends normally exactly when there is no handle or
    the connection is live; with a handle whose server does not answer it
    raises the driver's error and the world is as it was. *)
Theorem on_startup_outcome (w : World) :
  (fst (on_startup w) = Return tt <-> db w = None \/ exists c, live w c)
  /\ (forall c msg, db w = Some c -> db_fault c = Some msg ->
        on_startup w = (Raise (DriverError msg), w)).
Proof.
  unfold on_startup. split.
  - destruct (db w) as [c|] eqn:Hdb.
    + destruct (db_fault c) as [msg|] eqn:Hf.
      * rewrite (seed_fault w c msg Hdb Hf). simpl. split; [done|].
        intros [Hnone | (c' & Hdb' & Hf')]; congruence.
      * destruct (seed_live w c (conj Hdb Hf)) as (c' & Hrun & _).
        rewrite Hrun. simpl. split; [|done]. intros _. right. by exists c.
    + rewrite (seed_none w Hdb). simpl. split; [|done]. intros _. by left.
  - intros c msg Hdb Hf. exact (seed_fault w c msg Hdb Hf).
Qed.

Lemma on_startup_outcome_witness :
  on_startup (set_db unreachable_db fresh_world) =
    (Raise (DriverError "localhost:27017: connection refused"),
     set_db unreachable_db fresh_world).
Proof.
  apply (proj2 (on_startup_outcome (set_db unreachable_db fresh_world)) unreachable_db);
    reflexivity.
Defined.

(** ** The diagnostic body *)

Section DiagnosticBody.

Variable probe_name : Database -> outcome string.
Variable probe_collections : Database -> outcome (list string).

Lemma test_database_body (w : World) :
  test_database_with probe_name probe_collections w =
    (Return (match test_database_try probe_name probe_collections w with
             | (Return _, response) => response
             | (Raise e, response) => <["error" := VStr (exn_str e)]> response
             end), w).
Proof.
  unfold test_database_with.
  by destruct (test_database_try probe_name probe_collections w) as [[u|e] response].
Qed.

(** ["database_url"] says "Set" exactly when there is a handle and the
    variable [DATABASE_URL] holds a non-empty string; without a handle it
    says "Not Set" whatever the environment holds, and what reading the
    name or listing the collections does makes no difference. *)
Theorem test_database_url (w : World) :
  exists body,
    test_database_with probe_name probe_collections w = (Return body, w)
    /\ (body !! "database_url" = Some (VStr "✅ Set")
          <-> is_Some (db w) /\ truthy (environ w !! "DATABASE_URL") = true)
    /\ (body !! "database_url" = Some (VStr "❌ Not Set")
          <-> db w = None \/ truthy (environ w !! "DATABASE_URL") = false).
Proof.
  rewrite test_database_body. eexists. split; [reflexivity|].
  assert (Hurl : (match test_database_try probe_name probe_collections w with
                  | (Return _, response) => response
                  | (Raise e, response) => <["error" := VStr (exn_str e)]> response
                  end) !! "database_url" =
                 Some (VStr (match db w with
                             | Some _ =>
                                 if truthy (environ w !! "DATABASE_URL")
                                 then "✅ Set" else "❌ Not Set"
                             | None => "❌ Not Set"
                             end))).
  { unfold test_database_try. destruct (db w) as [c|]; [|reflexivity].
    destruct (probe_name c) as [n|e]; [|reflexivity].
    destruct (probe_collections c) as [names|e]; reflexivity. }
  rewrite Hurl. clear Hurl.
  destruct (db w) as [c|]; [destruct (truthy (environ w !! "DATABASE_URL"))|].
  - split; split.
    + intros _. split; [by eexists | done].
    + done.
    + intros Hc. vm_compute in Hc. discriminate.
    + intros [Hc|Hc]; discriminate.
  - split; split.
    + intros Hc. vm_compute in Hc. discriminate.
    + intros [_ Hc]. discriminate.
    + intros _. by right.
    + done.
  - split; split.
    + intros Hc. vm_compute in Hc. discriminate.
    + intros [[c Hc] _]. discriminate.
    + intros _. by left.
    + done.
Qed.

(** The body always has the five keys it starts with; ["error"] is there
    exactly when reading the name raised, ["collections_error"] exactly
    when listing the collections raised, never both; and ["collections"]
    is the empty list unless the listing succeeded. *)
Theorem test_database_keys (w : World) :
  exists body,
    test_database_with probe_name probe_collections w = (Return body, w)
    /\ Forall (fun k => is_Some (body !! k))
         ["backend"; "database"; "database_url"; "database_name"; "collections"]
    /\ (is_Some (body !! "error")
          <-> exists c e, db w = Some c /\ probe_name c = Raise e)
    /\ (is_Some (body !! "collections_error")
          <-> exists c n e, db w = Some c /\ probe_name c = Return n
                            /\ probe_collections c = Raise e)
    /\ ~ (is_Some (body !! "error") /\ is_Some (body !! "collections_error"))
    /\ (body !! "collections" = Some (VList [])
          \/ exists c n names, db w = Some c /\ probe_name c = Return n
                               /\ probe_collections c = Return names
                               /\ body !! "collections" = Some (VList names)).
Proof.
  rewrite test_database_body. eexists. split; [reflexivity|].
  unfold test_database_try.
  destruct (db w) as [c|] eqn:Hdb.
  - destruct (probe_name c) as [n|e] eqn:Hn.
    + destruct (probe_collections c) as [names|e] eqn:Hc.
      * split; [repeat constructor; by eexists|].
        split; [split; [intros [v Hv]; discriminate | intros (c' & e & ? & ?); congruence]|].
        split; [split; [intros [v Hv]; discriminate
                       | intros (c' & n' & e & ? & ? & ?); congruence]|].
        split; [intros [[v Hv] _]; discriminate|].
        right. exists c, n, names. by repeat split.
      * split; [repeat constructor; by eexists|].
        split; [split; [intros [v Hv]; discriminate | intros (c' & e' & ? & ?); congruence]|].
        split; [split; [intros _; by exists c, n, e | intros _; by eexists]|].
        split; [intros [[v Hv] _]; discriminate|].
        by left.
    + split; [repeat constructor; by eexists|].
      split; [split; [intros _; by exists c, e | intros _; by eexists]|].
      split; [split; [intros [v Hv]; discriminate
                     | intros (c' & n' & e' & ? & ? & ?); congruence]|].
      split; [intros [_ [v Hv]]; discriminate|].
      by left.
  - split; [repeat constructor; by eexists|].
    split; [split; [intros [v Hv]; discriminate | intros (c' & e & ? & ?); congruence]|].
    split; [split; [intros [v Hv]; discriminate
                   | intros (c' & n' & e & ? & ? & ?); congruence]|].
    split; [intros [[v Hv] _]; discriminate|].
    by left.
Qed.

End DiagnosticBody.

(** ** Listing and fetching courses *)

Lemma id_to_str_normalize (d : doc) : id_to_str (normalize_id d) = id_to_str d.
Proof. by destruct d as [[i|] f]. Qed.

Lemma get_documents_dead (coll : string) (q : query) (limit : option Z) (w : World) :
  (forall c, ~ live w c) ->
  exists e, get_documents coll q limit w = (Raise e, w)
            /\ http_status (Raise e : outcome reply) = 500%Z.
Proof.
  intros Hdead. unfold get_documents, find, round_trip.
  destruct (db w) as [c|] eqn:Hdb; [|by eexists].
  destruct (db_fault c) as [msg|] eqn:Hf; [by eexists|].
  destruct (Hdead c). by split.
Qed.

Lemma list_courses_items (w : World) (c : Database) :
  live w c ->
  list_courses w = (Return {| items := id_to_str <$> coll_docs c "course" |}, w).
Proof.
  intros Hl. unfold list_courses, bind.
  rewrite (get_documents_live "course" None w c Hl). unfold ret. simpl.
  do 2 f_equal. rewrite <- list_fmap_compose. f_equal. apply list_fmap_ext.
  intros i d _. apply id_to_str_normalize.
Qed.

Lemma list_courses_dead (w : World) :
  (forall c, ~ live w c) ->
  exists e, list_courses w = (Raise e, w)
            /\ http_status (fst (list_courses w)) = 500%Z.
Proof.
  intros Hd. destruct (get_documents_dead "course" QAll None w Hd) as (e & Hrun & Hst).
  exists e. unfold list_courses, bind. rewrite Hrun. by destruct e.
Qed.

Lemma live_or_dead (w : World) : (exists c, live w c) \/ (forall c, ~ live w c).
Proof.
  destruct (db w) as [c|] eqn:Hdb.
  - destruct (db_fault c) as [msg|] eqn:Hf.
    + right. intros c' [Hdb' Hf']. congruence.
    + left. by exists c.
  - right. intros c' [Hdb' _]. congruence.
Qed.

Lemma list_courses_world (w : World) : snd (list_courses w) = w.
Proof.
  destruct (live_or_dead w) as [[c Hl]|Hd].
  - by rewrite (list_courses_items w c Hl).
  - destruct (list_courses_dead w Hd) as (e & Hrun & _). by rewrite Hrun.
Qed.

(** [list_courses] returns every stored course, in store order, fields
    untouched and ["_id"] in string form; without a live connection it
    raises and the status is 500.  The world is never changed. *)
Theorem list_courses_all (w : World) :
  (forall c, live w c ->
     list_courses w = (Return {| items := id_to_str <$> coll_docs c "course" |}, w))
  /\ ((forall c, ~ live w c) ->
        exists e, list_courses w = (Raise e, w)
                  /\ http_status (fst (list_courses w)) = 500%Z)
  /\ snd (list_courses w) = w.
Proof.
  split; [apply list_courses_items|]. split; [apply list_courses_dead|].
  apply list_courses_world.
Qed.

Lemma list_courses_all_witness :
  list_courses (set_db pte_only fresh_world) =
    (Return {| items := id_to_str <$> coll_docs pte_only "course" |},
     set_db pte_only fresh_world).
Proof.
  apply (proj1 (list_courses_all (set_db pte_only fresh_world)) pte_only).
  split; reflexivity.
Defined.

Lemma first_course_elem (c : Database) (s : string) (d : doc) :
  first_course c s = Some d ->
  d ∈ coll_docs c "course" /\ matches (QField "slug" s) d = true.
Proof.
  intros Hh. unfold first_course in Hh. apply head_Some_elem_of in Hh.
  apply list_elem_of_filter in Hh. tauto.
Qed.

Lemma get_course_returns (s : string) (w : World) (d : doc) :
  fst (get_course s w) = Return d ->
  exists c d0, live w c /\ first_course c s = Some d0 /\ d = id_to_str d0.
Proof.
  intros Hrun. destruct (db w) as [c|] eqn:Hdb.
  - destruct (db_fault c) as [msg|] eqn:Hf.
    + rewrite (get_course_fault s w c msg Hdb Hf) in Hrun. discriminate.
    + rewrite (get_course_live s w c (conj Hdb Hf)) in Hrun.
      destruct (first_course c s) as [d0|] eqn:Hfirst; [|discriminate].
      simpl in Hrun. injection Hrun as <-. by exists c, d0.
  - rewrite (get_course_none s w Hdb) in Hrun. discriminate.
Qed.

(** Whatever [get_course] returns for a slug is an item of the listing
    [list_courses] gives in the same world, in the very same form, and its
    ["slug"] matches the one asked for. *)
Theorem get_course_listed (s : string) (w : World) (d : doc) :
  fst (get_course s w) = Return d ->
  exists l,
    list_courses w = (Return l, w)
    /\ d ∈ items l
    /\ field_matches (doc_fields d !! "slug") s = true.
Proof.
  intros Hrun.
  destruct (get_course_returns s w d Hrun) as (c & d0 & Hl & Hfirst & ->).
  destruct (first_course_elem c s d0 Hfirst) as [Hin Hm].
  exists {| items := id_to_str <$> coll_docs c "course" |}.
  split; [exact (list_courses_items w c Hl)|].
  split; [simpl; by apply list_elem_of_fmap_2 | exact Hm].
Qed.

Lemma get_course_listed_witness :
  exists l,
    list_courses (set_db pte_only fresh_world) = (Return l, set_db pte_only fresh_world)
    /\ id_to_str (stored 0%N pte_preparation) ∈ items l
    /\ field_matches (doc_fields (id_to_str (stored 0%N pte_preparation)) !! "slug")
         "pte-preparation" = true.
Proof.
  apply (get_course_listed "pte-preparation" (set_db pte_only fresh_world)).
  reflexivity.
Defined.

(** Every listed course whose ["slug"] is a string can be fetched by it:
    [get_course] returns a listed item with that slug (the first one in
    store order when several share it). *)
Theorem listed_course_fetchable (w : World) (l : Listing) (d : doc) (s : string) :
  fst (list_courses w) = Return l ->
  d ∈ items l ->
  doc_fields d !! "slug" = Some (VStr s) ->
  exists d',
    get_course s w = (Return d', w)
    /\ d' ∈ items l
    /\ field_matches (doc_fields d' !! "slug") s = true.
Proof.
  intros Hrun Hin Hslug.
  destruct (live_or_dead w) as [[c Hl]|Hd].
  2: { destruct (list_courses_dead w Hd) as (e & He & _).
       rewrite He in Hrun. discriminate. }
  rewrite (list_courses_items w c Hl) in Hrun. simpl in Hrun.
  injection Hrun as <-. simpl in Hin.
  apply list_elem_of_fmap in Hin as (d0 & -> & Hd0).
  rewrite (get_course_live s w c Hl).
  destruct (first_course c s) as [d1|] eqn:Hfirst.
  - destruct (first_course_elem c s d1 Hfirst) as [Hin1 Hm1].
    exists (id_to_str d1). split; [done|]. split; [|exact Hm1].
    simpl. by apply list_elem_of_fmap_2.
  - exfalso. unfold first_course in Hfirst.
    apply (head_filter_None (matches (QField "slug" s))) with (d := d0) in Hfirst; [|done].
    unfold matches, field_matches in Hfirst. simpl in Hslug. rewrite Hslug in Hfirst.
    by rewrite String.eqb_refl in Hfirst.
Qed.

Lemma listed_course_fetchable_witness :
  exists d',
    get_course "pte-preparation" (set_db pte_only fresh_world) =
      (Return d', set_db pte_only fresh_world)
    /\ d' ∈ [id_to_str (stored 0%N pte_preparation)]
    /\ field_matches (doc_fields d' !! "slug") "pte-preparation" = true.
Proof.
  apply (listed_course_fetchable (set_db pte_only fresh_world)
           {| items := [id_to_str (stored 0%N pte_preparation)] |}
           (id_to_str (stored 0%N pte_preparation)) "pte-preparation").
  - reflexivity.
  - apply list_elem_of_here.
  - reflexivity.
Defined.

(** ** Seeding, then fetching *)

Lemma stored_course_matches (o : ObjectId) (c : Course) (s : string) :
  matches (QField "slug" s) (stored o c) = String.eqb (slug c) s.
Proof. reflexivity. Qed.

Lemma first_course_seeded (c : Database) (n : ObjectId) (s : string) :
  coll_docs c "course" = stored_as n sample_courses ->
  first_course c s =
    if String.eqb "ielts-coaching" s then Some (stored (n + 0)%N ielts_coaching)
    else if String.eqb "pte-preparation" s then Some (stored (n + 1)%N pte_preparation)
    else if String.eqb "foreign-languages" s then Some (stored (n + 2)%N foreign_languages)
    else None.
Proof.
  intros Hdocs. unfold first_course. rewrite Hdocs.
  unfold stored_as, sample_courses. simpl imap.
  rewrite !filter_cons, filter_nil.
  rewrite !stored_course_matches.
  change (slug ielts_coaching) with "ielts-coaching".
  change (slug pte_preparation) with "pte-preparation".
  change (slug foreign_languages) with "foreign-languages".
  destruct (String.eqb "ielts-coaching" s); [by rewrite decide_True|].
  rewrite decide_False by done.
  destruct (String.eqb "pte-preparation" s); [by rewrite decide_True|].
  rewrite decide_False by done.
  destruct (String.eqb "foreign-languages" s); [by rewrite decide_True|].
  by rewrite decide_False.
Qed.

(** After [seed_if_empty] ran on a live connection whose [course]
    collection was empty, [get_course] answers for exactly the three sample
    slugs, with the record of that slug, and raises 404 for every other
    string. *)
Theorem get_course_after_seed (w : World) (c : Database) (s : string) :
  live w c ->
  coll_docs c "course" = [] ->
  (s ∈ slug <$> sample_courses ->
     exists d w',
       (seed_if_empty ;; get_course s) w = (Return d, w')
       /\ doc_fields d !! "slug" = Some (VStr s))
  /\ (s ∉ slug <$> sample_courses ->
        fst ((seed_if_empty ;; get_course s) w) =
          Raise (HTTPException 404 "Course not found")).
Proof.
  intros Hl Hc.
  destruct (seed_live w c Hl) as (c' & Hrun & Hl' & _ & Hc' & _).
  rewrite Hc in Hc'.
  unfold bind. rewrite Hrun, (get_course_live _ _ c' Hl').
  rewrite (first_course_seeded c' (db_next c) s Hc').
  destruct (String.eqb_spec "ielts-coaching" s) as [<-|H1].
  { split; [intros _; by eexists _, _ | intros Hn; destruct Hn; set_solver]. }
  destruct (String.eqb_spec "pte-preparation" s) as [<-|H2].
  { split; [intros _; by eexists _, _ | intros Hn; destruct Hn; set_solver]. }
  destruct (String.eqb_spec "foreign-languages" s) as [<-|H3].
  { split; [intros _; by eexists _, _ | intros Hn; destruct Hn; set_solver]. }
  split; [|done]. intros Hin. exfalso.
  simpl in Hin. rewrite !elem_of_cons in Hin.
  destruct Hin as [->|[->|[->|Hin]]]; try done. by apply elem_of_nil in Hin.
Qed.

Lemma get_course_after_seed_witness :
  exists d w',
    (seed_if_empty ;; get_course "foreign-languages") fresh_world = (Return d, w')
    /\ doc_fields d !! "slug" = Some (VStr "foreign-languages").
Proof.
  apply (proj1 (get_course_after_seed fresh_world (empty_db "iil") "foreign-languages"
                  (conj eq_refl eq_refl) eq_refl)).
  apply list_elem_of_further, list_elem_of_further, list_elem_of_here.
Defined.

(** The gate looks at emptiness only: when [course] already holds
    documents, none of them matching a slug, that slug is still not found
    after [seed_if_empty], be it one of the sample slugs. *)
Theorem seed_does_not_repair (w : World) (c : Database) (s : string) :
  live w c ->
  coll_docs c "course" <> [] ->
  (forall d, d ∈ coll_docs c "course" -> matches (QField "slug" s) d = false) ->
  fst ((seed_if_empty ;; get_course s) w) = Raise (HTTPException 404 "Course not found").
Proof.
  intros Hl Hne Hall.
  destruct (seed_live w c Hl) as (c' & Hrun & Hl' & _ & Hc' & _).
  unfold bind. rewrite Hrun, (get_course_live _ _ c' Hl').
  assert (Hsame : coll_docs c' "course" = coll_docs c "course").
  { rewrite Hc'. by destruct (coll_docs c "course"). }
  assert (Hnone : first_course c' s = None).
  { unfold first_course. rewrite Hsame.
    by apply (head_filter_None (matches (QField "slug" s))). }
  by rewrite Hnone.
Qed.

Lemma seed_does_not_repair_witness :
  fst ((seed_if_empty ;; get_course "ielts-coaching") (set_db pte_only fresh_world)) =
    Raise (HTTPException 404 "Course not found").
Proof.
  apply (seed_does_not_repair (set_db pte_only fresh_world) pte_only "ielts-coaching").
  - split; reflexivity.
  - discriminate.
  - intros d Hd. apply list_elem_of_singleton in Hd as ->. reflexivity.
Defined.

(** ** Identifiers in listings *)

Lemma list_testimonials_items (limit : option Z) (w : World) (c : Database) :
  live w c ->
  list_testimonials limit w =
    (Return {| items :=
                 (fun d => set_id (IdStr (match doc_id d with
                                          | Some (IdOid o) => oid_hex o
                                          | Some (IdStr s) => s
                                          | Some IdNone | None => "None"
                                          end)) d)
                   <$> apply_limit limit (coll_docs c "testimonial") |}, w).
Proof.
  intros Hl. unfold list_testimonials, bind.
  rewrite (get_documents_live "testimonial" limit w c Hl). unfold ret. simpl.
  do 2 f_equal. rewrite <- list_fmap_compose. f_equal. apply list_fmap_ext.
  intros i d _. by destruct d as [[[o|s|]|] f].
Qed.

Lemma id_to_str_cases (d : doc) :
  id_to_str d =
    set_id (match doc_id d with
            | Some (IdOid o) => IdStr (oid_hex o)
            | Some (IdStr s) => IdStr s
            | Some IdNone => IdStr "None"
            | None => IdNone
            end) d.
Proof. by destruct d as [[[o|s|]|] f]. Qed.

(** What the two listings put under ["_id"].  On a live connection
    [list_testimonials] returns the first [limit] stored testimonials, each
    with a string there: the 24 digits of its [ObjectId], the string it
    already held, or the string "None" when the key is missing or holds
    [None].  [list_courses] gives the same strings except that a document
    without the key gets [None], not a string.  So no [ObjectId] leaves
    either listing, whenever they return. *)
Theorem listing_ids_are_strings (w : World) :
  (forall c limit, live w c ->
     list_testimonials limit w =
       (Return {| items :=
                    (fun d => set_id (IdStr (match doc_id d with
                                             | Some (IdOid o) => oid_hex o
                                             | Some (IdStr s) => s
                                             | Some IdNone | None => "None"
                                             end)) d)
                      <$> apply_limit limit (coll_docs c "testimonial") |}, w))
  /\ (forall c, live w c ->
        list_courses w =
          (Return {| items :=
                       (fun d => set_id (match doc_id d with
                                         | Some (IdOid o) => IdStr (oid_hex o)
                                         | Some (IdStr s) => IdStr s
                                         | Some IdNone => IdStr "None"
                                         | None => IdNone
                                         end) d)
                         <$> coll_docs c "course" |}, w))
  /\ (forall limit l w',
        list_testimonials limit w = (Return l, w') ->
        Forall (fun d => exists s, doc_id d = Some (IdStr s)) (items l))
  /\ (forall l w',
        list_courses w = (Return l, w') ->
        Forall (fun d => doc_id d = Some IdNone \/ exists s, doc_id d = Some (IdStr s))
          (items l)).
Proof.
  split; [|split; [|split]].
  - intros c limit Hl. exact (list_testimonials_items limit w c Hl).
  - intros c Hl. rewrite (list_courses_items w c Hl). do 3 f_equal.
    apply list_fmap_ext. intros i d _. apply id_to_str_cases.
  - intros limit l w' Hrun. unfold list_testimonials, bind in Hrun.
    destruct (get_documents "testimonial" QAll limit w) as [[docs|e] w1]; [|discriminate].
    unfold ret in Hrun. injection Hrun as <- _. simpl.
    apply Forall_forall. intros d Hd.
    apply in_map_iff in Hd as (d0 & <- & _). by eexists.
  - intros l w' Hrun. unfold list_courses, bind in Hrun.
    destruct (get_documents "course" QAll None w) as [[docs|e] w1]; [|discriminate].
    unfold ret in Hrun. injection Hrun as <- _. simpl.
    apply Forall_forall. intros d Hd.
    apply in_map_iff in Hd as (d0 & <- & _). unfold id_to_str. simpl.
    destruct (doc_id d0); [right; by eexists | by left].
Qed.

Lemma listing_ids_are_strings_witness :
  list_testimonials (Some 1%Z) (set_db one_testimonial fresh_world) =
    (Return {| items :=
                 (fun d => set_id (IdStr (match doc_id d with
                                          | Some (IdOid o) => oid_hex o
                                          | Some (IdStr s) => s
                                          | Some IdNone | None => "None"
                                          end)) d)
                   <$> apply_limit (Some 1%Z) (coll_docs one_testimonial "testimonial") |},
     set_db one_testimonial fresh_world).
Proof.
  apply (proj1 (listing_ids_are_strings (set_db one_testimonial fresh_world))
           one_testimonial (Some 1%Z)).
  split; reflexivity.
Defined.

(** A testimonial stored without ["_id"] is listed with the string
    "None"; a course stored without it is listed with [None]. *)
Example listing_of_documents_without_id :
  (fun d => doc_id d) <$>
    [set_id (IdStr (py_str (default IdNone (doc_id (Doc None ∅))))) (Doc None ∅);
     id_to_str (Doc None ∅)]
  = [Some (IdStr "None"); Some IdNone].
Proof. reflexivity. Qed.

(** ** Validation of an enquiry body *)

Section ValidationProperties.

Variable validate_email : string -> option string.

Lemma req_str_name (body : gmap string json) :
  match req_str body "name" with
  | inr _ => field_passes validate_email body "name" = true
  | inl es => field_passes validate_email body "name" = false
              /\ exists rule, es = [("name", rule)]
  end.
Proof.
  unfold req_str, field_passes. simpl.
  destruct (body !! "name") as [[| | |s| |]|]; try done; split; by eauto.
Qed.

Lemma req_email_email (body : gmap string json) :
  match req_email validate_email body "email" with
  | inr _ => field_passes validate_email body "email" = true
  | inl es => field_passes validate_email body "email" = false
              /\ exists rule, es = [("email", rule)]
  end.
Proof.
  unfold req_email, field_passes. simpl.
  destruct (body !! "email") as [[| | |s| |]|]; try (split; by eauto).
  destruct (validate_email s) as [e|] eqn:Hs.
  - apply bool_decide_eq_true. by eexists.
  - split; [|by eauto]. apply bool_decide_eq_false. by intros [e He].
Qed.

Lemma opt_str_optional (body : gmap string json) (k : string) :
  String.eqb k "name" = false -> String.eqb k "email" = false ->
  match opt_str body k with
  | inr _ => field_passes validate_email body k = true
  | inl es => field_passes validate_email body k = false
              /\ exists rule, es = [(k, rule)]
  end.
Proof.
  intros H1 H2. unfold opt_str, field_passes. rewrite H1, H2.
  destruct (body !! k) as [[| | |s| |]|]; try done; split; by eauto.
Qed.

(** Validation reports every declared key whose value the model does not
    take, once each and in the order of declaration; the body is accepted
    exactly when there is none. *)
Theorem validate_enquiry_reports_all (body : gmap string json) :
  match validate_enquiry validate_email body with
  | inr payload => forallb (field_passes validate_email body) enquiry_fields = true
  | inl errors =>
      errors <> []
      /\ errors.*1 =
           List.filter (fun k => negb (field_passes validate_email body k)) enquiry_fields
  end.
Proof.
  pose proof (req_str_name body) as Hn.
  pose proof (req_email_email body) as He.
  pose proof (opt_str_optional body "phone" eq_refl eq_refl) as Hp.
  pose proof (opt_str_optional body "course_interest" eq_refl eq_refl) as Hc.
  pose proof (opt_str_optional body "message" eq_refl eq_refl) as Hm.
  unfold validate_enquiry, enquiry_fields. simpl forallb. simpl List.filter.
  destruct (req_str body "name") as [en|n];
    destruct (req_email validate_email body "email") as [ee|e];
    destruct (opt_str body "phone") as [ep|p];
    destruct (opt_str body "course_interest") as [ec|c];
    destruct (opt_str body "message") as [em|m];
    repeat match goal with
           | H : _ /\ _ |- _ => destruct H as [? [? ->]]
           end;
    repeat match goal with
           | H : field_passes _ _ _ = _ |- _ => rewrite H; clear H
           end;
    simpl; done.
Qed.

(** For the three optional keys an explicit [null] is the same as leaving
    the key out; for the two required ones [null] is refused. *)
Theorem optional_null_is_absent (body : gmap string json) (k : string) :
  (k ∈ ["phone"; "course_interest"; "message"] ->
     validate_enquiry validate_email (<[k := JNull]> body) =
       validate_enquiry validate_email (delete k body))
  /\ (k ∈ ["name"; "email"] ->
        exists errors rule,
          validate_enquiry validate_email (<[k := JNull]> body) = inl errors
          /\ (k, rule) ∈ errors).
Proof.
  split; intros Hk.
  - rewrite !elem_of_cons in Hk. destruct Hk as [->|[->|[->|Hk]]];
      [| | | by apply elem_of_nil in Hk];
      unfold validate_enquiry, req_str, req_email, opt_str;
      rewrite ?lookup_insert_eq, ?lookup_delete_eq;
      rewrite ?lookup_insert_ne, ?lookup_delete_ne by done; reflexivity.
  - rewrite !elem_of_cons in Hk. destruct Hk as [->|[->|Hk]];
      [| | by apply elem_of_nil in Hk].
    + unfold validate_enquiry, req_str. rewrite lookup_insert_eq.
      destruct (req_email validate_email (<["name":=JNull]> body) "email");
        destruct (opt_str (<["name":=JNull]> body) "phone");
        destruct (opt_str (<["name":=JNull]> body) "course_interest");
        destruct (opt_str (<["name":=JNull]> body) "message");
        (eexists _, "string_type"; split; [reflexivity | apply list_elem_of_here]).
    + unfold validate_enquiry, req_email. rewrite lookup_insert_eq.
      destruct (req_str (<["email":=JNull]> body) "name");
        destruct (opt_str (<["email":=JNull]> body) "phone");
        destruct (opt_str (<["email":=JNull]> body) "course_interest");
        destruct (opt_str (<["email":=JNull]> body) "message");
        (eexists _, "string_type"; split; [reflexivity|];
         rewrite elem_of_app; right; apply list_elem_of_here).
Qed.

End ValidationProperties.

Lemma validate_enquiry_reports_all_example :
  validate_enquiry simple_email {[ "email" := JStr "nobody"; "phone" := JNum (1 # 1) ]} =
    inl [("name", "missing"); ("email", "value_error"); ("phone", "string_type")].
Proof. reflexivity. Qed.

Lemma optional_null_is_absent_witness :
  validate_enquiry simple_email (<["phone" := JNull]> asha_body) =
    validate_enquiry simple_email (delete "phone" asha_body).
Proof.
  apply (proj1 (optional_null_is_absent simple_email asha_body "phone")).
  apply list_elem_of_here.
Defined.

(** ** The application, request by request *)

Lemma is_live_true (w : World) : is_live w = true <-> exists c, live w c.
Proof.
  unfold is_live, live. destruct (db w) as [c|].
  - destruct (db_fault c) eqn:Hf.
    + split; [done|]. intros (c' & Hc & Hf'). congruence.
    + split; [|done]. intros _. by exists c.
  - split; [done|]. intros (c' & Hc & _). discriminate.
Qed.

Lemma is_live_false (w : World) : is_live w = false <-> forall c, ~ live w c.
Proof.
  rewrite <- not_true_iff_false, is_live_true. split.
  - intros Hn c Hl. apply Hn. by exists c.
  - intros Hn [c Hl]. by apply (Hn c).
Qed.

Lemma bind_ret_snd {A B} (m : M A) (f : A -> B) (w : World) :
  snd ((do a <- m; ret (f a)) w) = snd (m w).
Proof. unfold bind, ret. by destruct (m w) as [[a|e] w']. Qed.

Lemma bind_ret_status {A B} (m : M A) (f : A -> B) (w : World) :
  http_status (fst ((do a <- m; ret (f a)) w)) = http_status (fst (m w)).
Proof. unfold bind, ret. by destruct (m w) as [[a|e] w']. Qed.

Lemma get_course_world (s : string) (w : World) : snd (get_course s w) = w.
Proof.
  destruct (db w) as [c|] eqn:Hdb.
  - destruct (db_fault c) as [msg|] eqn:Hf.
    + by rewrite (get_course_fault s w c msg Hdb Hf).
    + rewrite (get_course_live s w c (conj Hdb Hf)). by destruct (first_course c s).
  - by rewrite (get_course_none s w Hdb).
Qed.

Lemma api_testimonials_world (limit : option Z) (w : World) :
  snd (api_testimonials limit w) = w.
Proof.
  unfold api_testimonials. destruct (live_or_dead w) as [[c Hl]|Hd].
  - destruct (list_testimonials_live (Some (default 10%Z limit)) w c Hl) as (l & Hrun & _).
    by rewrite Hrun.
  - destruct (list_testimonials_dead (Some (default 10%Z limit)) w Hd) as (e & Hrun).
    by rewrite Hrun.
Qed.

Lemma test_database_world (w : World) : snd (test_database w) = w.
Proof. unfold test_database. by rewrite test_database_body. Qed.

Lemma test_database_status (w : World) : http_status (fst (test_database w)) = 200%Z.
Proof. unfold test_database. by rewrite test_database_body. Qed.

Lemma append_changes (c : Database) (coll : string) (d : doc) (w : World) :
  set_db (append_doc c coll d) w <> set_db c w.
Proof.
  intros Heq. assert (Hn : db_next (append_doc c coll d) = db_next c).
  { unfold set_db in Heq. by injection Heq as ->. }
  simpl in Hn. lia.
Qed.

Section RouterProperties.

Variable validate_email : string -> option string.

Lemma post_rejected (body : gmap string json) (errors : list verr) (w : World) :
  validate_enquiry validate_email body = inl errors ->
  post_enquiries validate_email body w = (Raise (RequestValidationError errors), w).
Proof. intros Hv. unfold post_enquiries. by rewrite Hv. Qed.

Lemma post_live (body : gmap string json) (payload : Enquiry) (w : World) (c : Database) :
  validate_enquiry validate_email body = inr payload ->
  live w c ->
  post_enquiries validate_email body w =
    (Return {[ "status" := VStr "ok"; "id" := VStr (oid_hex (db_next c)) ]},
     set_db (append_doc c "enquiry" (stored (db_next c) payload)) w).
Proof.
  intros Hv Hl. unfold post_enquiries. rewrite Hv. unfold submit_enquiry, bind.
  by rewrite (create_document_live "enquiry" payload w c Hl).
Qed.

Lemma post_dead (body : gmap string json) (payload : Enquiry) (w : World) :
  validate_enquiry validate_email body = inr payload ->
  (forall c, ~ live w c) ->
  exists e, post_enquiries validate_email body w = (Raise e, w)
            /\ http_status (Raise e : outcome reply) = 500%Z.
Proof.
  intros Hv Hd. unfold post_enquiries. rewrite Hv.
  unfold submit_enquiry, bind, create_document, insert_one.
  destruct (db w) as [c|] eqn:Hdb; [|by eexists].
  destruct (db_fault c) as [msg|] eqn:Hf.
  - rewrite (set_db_same w c Hdb). by eexists.
  - destruct (Hd c). by split.
Qed.

(** What one request does to a world with a live connection. *)
Lemma serve_step_live (r : request) (w : World) (c : Database) :
  live w c ->
  (accepted validate_email r = false /\ snd (serve validate_email r w) = w)
  \/ (accepted validate_email r = true
      /\ exists body payload,
           r = PostEnquiries body
           /\ validate_enquiry validate_email body = inr payload
           /\ snd (serve validate_email r w) =
                set_db (append_doc c "enquiry" (stored (db_next c) payload)) w).
Proof.
  intros Hl. destruct r as [| | |s|limit|body|]; cbn [serve accepted];
    try (left; split; [reflexivity|]; rewrite bind_ret_snd).
  - reflexivity.
  - apply test_database_world.
  - apply list_courses_world.
  - apply get_course_world.
  - apply api_testimonials_world.
  - destruct (validate_enquiry validate_email body) as [errors|payload] eqn:Hv.
    + left. split; [reflexivity|]. rewrite bind_ret_snd.
      by rewrite (post_rejected body errors w Hv).
    + right. split; [reflexivity|]. exists body, payload.
      split; [reflexivity|]. split; [exact Hv|]. rewrite bind_ret_snd.
      by rewrite (post_live body payload w c Hv Hl).
  - reflexivity.
Qed.

Lemma serve_step_dead (r : request) (w : World) :
  (forall c, ~ live w c) -> snd (serve validate_email r w) = w.
Proof.
  intros Hd. destruct r as [| | |s|limit|body|]; cbn [serve]; rewrite bind_ret_snd.
  - reflexivity.
  - apply test_database_world.
  - apply list_courses_world.
  - apply get_course_world.
  - apply api_testimonials_world.
  - destruct (validate_enquiry validate_email body) as [errors|payload] eqn:Hv.
    + by rewrite (post_rejected body errors w Hv).
    + destruct (post_dead body payload w Hv Hd) as (e & Hrun & _). by rewrite Hrun.
  - reflexivity.
Qed.

(** The status of every response follows from three facts: whether the
    connection is live, whether the body validates, and whether a course
    matches the slug.  [/], [/test] and [/schema] always answer 200; the two
    listings 200 on a live connection and 500 otherwise; a course 200, 404
    or 500; an enquiry 422 when the body fails validation, before the store
    is looked at, and otherwise 200 or 500. *)
Theorem serve_statuses (r : request) (w : World) :
  http_status (fst (serve validate_email r w)) =
    match r with
    | GetRoot | GetTest | GetSchema => 200%Z
    | GetCourses | GetTestimonials _ => if is_live w then 200%Z else 500%Z
    | GetCourse s =>
        match db w with
        | Some c =>
            if is_live w
            then match first_course c s with
                 | Some _ => 200%Z
                 | None => 404%Z
                 end
            else 500%Z
        | None => 500%Z
        end
    | PostEnquiries body =>
        match validate_enquiry validate_email body with
        | inl _ => 422%Z
        | inr _ => if is_live w then 200%Z else 500%Z
        end
    end.
Proof.
  destruct r as [| | |s|limit|body|]; cbn [serve]; rewrite bind_ret_status.
  - reflexivity.
  - apply test_database_status.
  - destruct (is_live w) eqn:Hlv.
    + apply is_live_true in Hlv as [c Hl]. by rewrite (list_courses_items w c Hl).
    + pose proof (proj1 (is_live_false w) Hlv) as Hd.
      by destruct (list_courses_dead w Hd) as (e & _ & ->).
  - unfold is_live. destruct (db w) as [c|] eqn:Hdb.
    + destruct (db_fault c) as [msg|] eqn:Hf.
      * by rewrite (get_course_fault s w c msg Hdb Hf).
      * rewrite (get_course_live s w c (conj Hdb Hf)). by destruct (first_course c s).
    + by rewrite (get_course_none s w Hdb).
  - unfold api_testimonials. destruct (is_live w) eqn:Hlv.
    + apply is_live_true in Hlv as [c Hl].
      destruct (list_testimonials_live (Some (default 10%Z limit)) w c Hl) as (l & Hrun & _).
      by rewrite Hrun.
    + pose proof (proj1 (is_live_false w) Hlv) as Hd.
      unfold list_testimonials, bind.
      destruct (get_documents_dead "testimonial" QAll (Some (default 10%Z limit)) w Hd)
        as (e & Hrun & Hst).
      rewrite Hrun. by destruct e.
  - destruct (validate_enquiry validate_email body) as [errors|payload] eqn:Hv.
    + by rewrite (post_rejected body errors w Hv).
    + destruct (is_live w) eqn:Hlv.
      * apply is_live_true in Hlv as [c Hl]. by rewrite (post_live body payload w c Hv Hl).
      * pose proof (proj1 (is_live_false w) Hlv) as Hd.
        destruct (post_dead body payload w Hv Hd) as (e & Hrun & Hst).
        rewrite Hrun. by destruct e.
  - reflexivity.
Qed.

(** No [GET] request changes the world; a [POST /api/enquiries] changes
    it exactly when the body validates and the connection is live. *)
Theorem only_accepted_posts_write (r : request) (w : World) :
  (is_get r = true -> snd (serve validate_email r w) = w)
  /\ (snd (serve validate_email r w) = w
        <-> ~ (accepted validate_email r = true /\ is_live w = true)).
Proof.
  assert (Hiff : snd (serve validate_email r w) = w
                 <-> ~ (accepted validate_email r = true /\ is_live w = true)).
  { destruct (live_or_dead w) as [[c Hl]|Hd].
    - destruct (serve_step_live r w c Hl) as [[Ha Hw]|(Ha & body & payload & -> & Hv & Hw)].
      + split; [intros _ [Hacc _]; congruence | done].
      + split.
        * intros Hsame _. rewrite Hw in Hsame. destruct Hl as [Hdb _].
          apply (append_changes c "enquiry" (stored (db_next c) payload) w).
          rewrite Hsame. symmetry. by apply set_db_same.
        * intros Hn. destruct Hn. split; [exact Ha|]. apply is_live_true. by exists c.
    - split; [|intros _; by apply serve_step_dead].
      intros _ [_ Hlv]. apply is_live_true in Hlv as [c Hl]. by apply (Hd c). }
  split; [|exact Hiff].
  intros Hget. apply Hiff. intros [Hacc _]. by destruct r.
Qed.

(** ** The application over a run of requests *)

Lemma serve_all_cons (r : request) (rs : list request) (w : World) :
  snd (serve_all validate_email (r :: rs) w) =
    snd (serve_all validate_email rs (snd (serve validate_email r w))).
Proof.
  simpl. destruct (serve validate_email r w) as [o w1]. simpl.
  by destruct (serve_all validate_email rs w1) as [os w2].
Qed.

Lemma serve_all_dead (rs : list request) (w : World) :
  (forall c, ~ live w c) -> snd (serve_all validate_email rs w) = w.
Proof.
  intros Hd. induction rs as [|r rs IH]; [reflexivity|].
  by rewrite serve_all_cons, (serve_step_dead r w Hd).
Qed.

Lemma accepted_posts_cons (r : request) (rs : list request) :
  accepted_posts validate_email (r :: rs) =
    (if accepted validate_email r then 1 else 0) + accepted_posts validate_email rs.
Proof. unfold accepted_posts. simpl. by destruct (accepted validate_email r). Qed.

(** A run of requests on a live connection, seen from the store. *)
Lemma serve_all_live (rs : list request) (w : World) (c : Database) :
  live w c ->
  exists c',
    snd (serve_all validate_email rs w) = set_db c' w
    /\ live (set_db c' w) c'
    /\ db_name c' = db_name c
    /\ db_next c' = (db_next c + N.of_nat (accepted_posts validate_email rs))%N
    /\ length (coll_docs c' "enquiry") =
         length (coll_docs c "enquiry") + accepted_posts validate_email rs
    /\ coll_docs c "enquiry" `prefix_of` coll_docs c' "enquiry"
    /\ (forall coll, coll <> "enquiry" -> db_colls c' !! coll = db_colls c !! coll)
    /\ (ids_assigned c -> ids_assigned c').
Proof.
  revert w c. induction rs as [|r rs IH]; intros w c Hl.
  - exists c. destruct Hl as [Hdb Hf]. simpl. rewrite (set_db_same w c Hdb).
    unfold accepted_posts. simpl. repeat split; try done; lia.
  - rewrite serve_all_cons, accepted_posts_cons.
    destruct (serve_step_live r w c Hl) as [[Ha Hw]|(Ha & body & payload & -> & Hv & Hw)].
    + rewrite Hw, Ha. exact (IH w c Hl).
    + rewrite Hw, Ha.
      set (c1 := append_doc c "enquiry" (stored (db_next c) payload)).
      assert (Hl1 : live (set_db c1 w) c1) by (split; [done | apply Hl]).
      destruct (IH (set_db c1 w) c1 Hl1)
        as (c' & Hrun & Hl' & Hn & Hnext & Hlen & Hpre & Hother & Hids).
      exists c'. rewrite set_db_set_db in *.
      split; [exact Hrun|]. split; [exact Hl'|]. split; [by rewrite Hn|].
      split; [rewrite Hnext; unfold c1; simpl; lia|].
      split; [rewrite Hlen; unfold c1; rewrite coll_docs_append_eq, length_app; simpl; lia|].
      split.
      { etransitivity; [|exact Hpre]. unfold c1. rewrite coll_docs_append_eq.
        by apply prefix_app_r. }
      split.
      { intros coll Hne. rewrite (Hother coll Hne). unfold c1. by apply colls_append_ne. }
      intros Hinv. apply Hids. unfold c1. by apply ids_assigned_append.
Qed.

End RouterProperties.

Lemma only_accepted_posts_write_witness :
  snd (serve simple_email (GetCourse "pte-preparation") (set_db pte_only fresh_world)) =
    set_db pte_only fresh_world.
Proof.
  apply (proj1 (only_accepted_posts_write simple_email (GetCourse "pte-preparation")
                  (set_db pte_only fresh_world))).
  reflexivity.
Defined.

(** ** What a run keeps *)

Lemma set_db_inj (c1 c2 : Database) (w : World) : set_db c1 w = set_db c2 w -> c1 = c2.
Proof. unfold set_db. by intros [= ->]. Qed.

Lemma grown_refl (w : World) : grown w w.
Proof. split; [done|]. destruct (db w) as [c|]; [|done]. repeat split; done. Qed.

Lemma grown_set_db (w : World) (c c' : Database) :
  db w = Some c ->
  db_name c' = db_name c -> db_fault c' = db_fault c ->
  (db_next c <= db_next c')%N ->
  (forall coll, coll_docs c coll `prefix_of` coll_docs c' coll) ->
  grown w (set_db c' w).
Proof. intros Hdb Hn Hf Hnext Hpre. split; [done|]. simpl. by rewrite Hdb. Qed.

Lemma coll_docs_same (c c' : Database) (coll : string) :
  db_colls c' !! coll = db_colls c !! coll -> coll_docs c' coll = coll_docs c coll.
Proof. unfold coll_docs. by intros ->. Qed.

Section SeedInvariant.
Context {A : Type} `{BaseModel A}.

Lemma for_each_create_inv (coll : string) (rs : list A) (w : World) (c : Database) :
  live w c ->
  exists c',
    for_each rs (fun r => create_document coll r) w = (Return tt, set_db c' w)
    /\ (db_next c <= db_next c')%N
    /\ (ids_assigned c -> ids_assigned c').
Proof.
  revert w c. induction rs as [|r rs IH]; intros w c Hl.
  - exists c. destruct Hl as [Hdb _]. simpl. unfold ret. rewrite (set_db_same w c Hdb).
    repeat split; [lia | done].
  - destruct (IH _ _ (append_live coll (stored (db_next c) r) w c Hl))
      as (c' & Hrun & Hnext & Hids).
    exists c'. simpl. unfold bind. rewrite (create_document_live coll r w c Hl), Hrun.
    rewrite set_db_set_db. split; [done|]. split; [simpl in Hnext; lia|].
    intros Hinv. apply Hids. by apply ids_assigned_append.
Qed.

Lemma gate_inv (coll : string) (rs : list A) (w : World) (c : Database) :
  live w c ->
  exists c',
    (do n <- db_read (fun c => count_documents c coll QAll);
     if (n =? 0)%Z
     then for_each rs (fun r => create_document coll r)
     else ret tt) w = (Return tt, set_db c' w)
    /\ (db_next c <= db_next c')%N
    /\ (ids_assigned c -> ids_assigned c').
Proof.
  intros Hl. pose proof Hl as [Hdb Hf].
  unfold bind, db_read. rewrite Hdb, (count_all_live c coll Hf).
  destruct (coll_docs c coll) as [|d l].
  - simpl. apply (for_each_create_inv coll rs w c Hl).
  - exists c. rewrite count_cons_nonzero. unfold ret. rewrite (set_db_same w c Hdb).
    repeat split; [lia | done].
Qed.

End SeedInvariant.

Lemma seed_inv (w : World) (c : Database) :
  live w c ->
  exists c',
    seed_if_empty w = (Return tt, set_db c' w)
    /\ (db_next c <= db_next c')%N
    /\ (ids_assigned c -> ids_assigned c').
Proof.
  intros Hl. pose proof Hl as [Hdb Hf].
  destruct (gate_live "course" sample_courses w c Hl) as (c0 & Hrun0 & Hl0 & _).
  destruct (gate_inv "course" sample_courses w c Hl) as (c1 & Hrun1 & Hn1 & Hi1).
  assert (c0 = c1) as -> by (apply (set_db_inj _ _ w); congruence).
  destruct (gate_inv "testimonial" testimonials (set_db c1 w) c1 Hl0)
    as (c2 & Hrun2 & Hn2 & Hi2).
  rewrite set_db_set_db in Hrun2.
  exists c2. split; [|split; [lia | auto]].
  unfold seed_if_empty. unfold bind at 1, get_db. rewrite Hdb.
  unfold bind at 1. rewrite Hrun1. exact Hrun2.
Qed.

(** The startup hook, seen from the store. *)
Lemma startup_live (w : World) (c : Database) :
  live w c ->
  exists c',
    on_startup w = (Return tt, set_db c' w)
    /\ live (set_db c' w) c'
    /\ db_name c' = db_name c
    /\ (db_next c <= db_next c')%N
    /\ (forall coll, coll_docs c coll `prefix_of` coll_docs c' coll)
    /\ coll_docs c' "course" <> []
    /\ coll_docs c' "testimonial" <> []
    /\ (forall coll, coll <> "course" -> coll <> "testimonial" ->
          db_colls c' !! coll = db_colls c !! coll)
    /\ (ids_assigned c -> ids_assigned c').
Proof.
  intros Hl. unfold on_startup.
  destruct (seed_live w c Hl) as (c' & Hrun & Hl' & Hn & Hc & Ht & Ho).
  destruct (seed_inv w c Hl) as (c2 & Hrun2 & Hnext & Hids).
  assert (c2 = c') as -> by (apply (set_db_inj _ _ w); congruence).
  exists c'. repeat split; try done; try apply Hl'.
  - intros coll. destruct (decide (coll = "course")) as [->|H1].
    + rewrite Hc. destruct (coll_docs c "course"); [apply prefix_nil | done].
    + destruct (decide (coll = "testimonial")) as [->|H2].
      * rewrite Ht. destruct (coll_docs c "testimonial"); [apply prefix_nil | done].
      * by rewrite (coll_docs_same c c' coll (Ho coll H1 H2)).
  - rewrite Hc. destruct (coll_docs c "course"); discriminate.
  - rewrite Ht. destruct (coll_docs c "testimonial"); [|discriminate].
    destruct (coll_docs c "course"); discriminate.
Qed.

Lemma startup_dead (w : World) : (forall c, ~ live w c) -> snd (on_startup w) = w.
Proof.
  intros Hd. unfold on_startup. destruct (db w) as [c|] eqn:Hdb.
  - destruct (db_fault c) as [msg|] eqn:Hf.
    + by rewrite (seed_fault w c msg Hdb Hf).
    + destruct (Hd c). by split.
  - by rewrite (seed_none w Hdb).
Qed.

Section RunProperties.

Variable validate_email : string -> option string.

(** Nothing stored is ever removed or rewritten: after the startup hook,
    and after any run of requests, every collection still begins with the
    documents it held, the handle and the environment are the same, and
    identifiers were only used up. *)
Theorem append_only (rs : list request) (w : World) :
  grown w (snd (on_startup w))
  /\ grown w (snd (serve_all validate_email rs w)).
Proof.
  destruct (live_or_dead w) as [[c Hl]|Hd].
  - pose proof Hl as [Hdb Hf]. split.
    + destruct (startup_live w c Hl) as (c' & Hrun & Hl' & Hn & Hnext & Hpre & _).
      rewrite Hrun. simpl. apply (grown_set_db w c c'); try done.
      destruct Hl' as [_ Hf']. congruence.
    + destruct (serve_all_live validate_email rs w c Hl)
        as (c' & Hrun & Hl' & Hn & Hnext & _ & Hpre & Hother & _).
      rewrite Hrun. apply (grown_set_db w c c'); try done.
      * destruct Hl' as [_ Hf']. congruence.
      * lia.
      * intros coll. destruct (decide (coll = "enquiry")) as [->|Hne]; [done|].
        by rewrite (coll_docs_same c c' coll (Hother coll Hne)).
  - rewrite (startup_dead w Hd), (serve_all_dead validate_email rs w Hd).
    split; apply grown_refl.
Qed.

(** The startup hook and every run of requests keep the store invariant:
    each stored document carries an identifier that was handed out. *)
Theorem ids_ok_kept (rs : list request) (w : World) :
  ids_ok w ->
  ids_ok (snd (on_startup w))
  /\ ids_ok (snd (serve_all validate_email rs w)).
Proof.
  intros Hok. destruct (live_or_dead w) as [[c Hl]|Hd].
  - pose proof Hl as [Hdb Hf]. specialize (Hok c Hdb). split.
    + destruct (startup_live w c Hl) as (c' & Hrun & _ & _ & _ & _ & _ & _ & _ & Hids).
      rewrite Hrun. intros c0 Hc0. simpl in Hc0. injection Hc0 as <-. auto.
    + destruct (serve_all_live validate_email rs w c Hl)
        as (c' & Hrun & _ & _ & _ & _ & _ & _ & Hids).
      rewrite Hrun. intros c0 Hc0. simpl in Hc0. injection Hc0 as <-. auto.
  - by rewrite (startup_dead w Hd), (serve_all_dead validate_email rs w Hd).
Qed.

(** Enquiries accumulate and are never merged: on a live connection a
    run of requests adds exactly one document to [enquiry] for each post
    whose body validates, equal bodies included, and leaves every other
    collection as it was. *)
Theorem enquiries_accumulate (rs : list request) (w : World) (c : Database) :
  live w c ->
  exists c',
    db (snd (serve_all validate_email rs w)) = Some c'
    /\ length (coll_docs c' "enquiry") =
         length (coll_docs c "enquiry") + accepted_posts validate_email rs
    /\ coll_docs c "enquiry" `prefix_of` coll_docs c' "enquiry"
    /\ (forall coll, coll <> "enquiry" -> db_colls c' !! coll = db_colls c !! coll).
Proof.
  intros Hl.
  destruct (serve_all_live validate_email rs w c Hl)
    as (c' & Hrun & _ & _ & _ & Hlen & Hpre & Hother & _).
  exists c'. rewrite Hrun. by repeat split.
Qed.

(** Once the startup hook has run on a live connection, both listings
    stay non-empty whatever requests follow. *)
Theorem listings_nonempty_after_startup (rs : list request) (w : World) (c : Database) :
  live w c ->
  exists lc lt w2,
    snd (serve_all validate_email rs (snd (on_startup w))) = w2
    /\ list_courses w2 = (Return lc, w2) /\ items lc <> []
    /\ api_testimonials None w2 = (Return lt, w2) /\ items lt <> [].
Proof.
  intros Hl.
  destruct (startup_live w c Hl) as (c1 & Hrun1 & Hl1 & _ & _ & _ & Hc1 & Ht1 & _).
  rewrite Hrun1. simpl.
  destruct (serve_all_live validate_email rs _ c1 Hl1)
    as (c2 & Hrun2 & Hl2 & _ & _ & _ & _ & Hother & _).
  rewrite Hrun2. rewrite set_db_set_db in *.
  assert (Hc2 : coll_docs c2 "course" = coll_docs c1 "course")
    by (apply coll_docs_same, Hother; discriminate).
  assert (Ht2 : coll_docs c2 "testimonial" = coll_docs c1 "testimonial")
    by (apply coll_docs_same, Hother; discriminate).
  destruct (list_testimonials_live (Some 10%Z) _ c2 Hl2) as (lt & Hlt & Hlen).
  exists {| items := id_to_str <$> coll_docs c2 "course" |}, lt, (set_db c2 w).
  split; [reflexivity|]. split; [exact (list_courses_items _ c2 Hl2)|].
  split.
  { simpl. rewrite Hc2. destruct (coll_docs c1 "course"); [done | discriminate]. }
  split; [exact Hlt|].
  intros Hnil. rewrite Hnil, Ht2 in Hlen. simpl in Hlen.
  destruct (coll_docs c1 "testimonial"); [done | discriminate].
Qed.

(** The collections of the store stay within the list [GET /schema]
    gives: if they are at the start, they are after the startup hook and
    after any run of requests, and then [GET /test] lists none but them. *)
Theorem collections_within_schema (rs : list request) (w : World) :
  within_schema w ->
  within_schema (snd (on_startup w))
  /\ within_schema (snd (serve_all validate_email rs w))
  /\ (forall body names,
        fst (test_database w) = Return body ->
        body !! "collections" = Some (VList names) ->
        forall n, n ∈ names -> n ∈ schema_collections).
Proof.
  intros Hin.
  assert (Hc : "course" ∈ schema_collections) by apply list_elem_of_here.
  assert (Ht : "testimonial" ∈ schema_collections)
    by apply list_elem_of_further, list_elem_of_here.
  assert (He : "enquiry" ∈ schema_collections)
    by (do 3 apply list_elem_of_further; apply list_elem_of_here).
  split; [|split].
  - destruct (live_or_dead w) as [[c Hl]|Hd]; [|by rewrite (startup_dead w Hd)].
    destruct (startup_live w c Hl) as (c' & Hrun & _ & _ & _ & _ & _ & _ & Ho & _).
    rewrite Hrun. intros c0 coll Hc0 Hsome. simpl in Hc0. injection Hc0 as <-.
    destruct (decide (coll = "course")) as [->|H1]; [done|].
    destruct (decide (coll = "testimonial")) as [->|H2]; [done|].
    rewrite (Ho coll H1 H2) in Hsome. apply (Hin c coll); [apply Hl | done].
  - destruct (live_or_dead w) as [[c Hl]|Hd];
      [|by rewrite (serve_all_dead validate_email rs w Hd)].
    destruct (serve_all_live validate_email rs w c Hl)
      as (c' & Hrun & _ & _ & _ & _ & _ & Ho & _).
    rewrite Hrun. intros c0 coll Hc0 Hsome. simpl in Hc0. injection Hc0 as <-.
    destruct (decide (coll = "enquiry")) as [->|H1]; [done|].
    rewrite (Ho coll H1) in Hsome. apply (Hin c coll); [apply Hl | done].
  - intros body names Hrun Hcolls n Hn.
    unfold test_database in Hrun. rewrite test_database_body in Hrun.
    simpl in Hrun. injection Hrun as <-.
    unfold test_database_try, list_collection_names, round_trip in Hcolls.
    destruct (db w) as [c|] eqn:Hdb.
    + destruct (db_fault c) as [msg|] eqn:Hf.
      * vm_compute in Hcolls. injection Hcolls as <-. by apply elem_of_nil in Hn.
      * rewrite lookup_insert_eq in Hcolls. injection Hcolls as <-.
        apply list_elem_of_fmap in Hn as ([k v] & -> & Hkv).
        apply elem_of_map_to_list in Hkv. apply (Hin c k Hdb). by eexists.
    + vm_compute in Hcolls. injection Hcolls as <-. by apply elem_of_nil in Hn.
Qed.

End RunProperties.

(** ** The properties on an example run *)

Lemma ids_ok_fresh : ids_ok fresh_world.
Proof. intros c [= <-]. apply ids_assigned_empty. Qed.

Lemma within_schema_fresh : within_schema fresh_world.
Proof. intros c coll [= <-] [v Hv]. simpl in Hv. by rewrite lookup_empty in Hv. Qed.

Lemma ids_ok_kept_witness :
  ids_ok (snd (on_startup fresh_world))
  /\ ids_ok (snd (serve_all simple_email
                    [PostEnquiries asha_body; GetCourses; PostEnquiries asha_body]
                    fresh_world)).
Proof.
  apply (ids_ok_kept simple_email
           [PostEnquiries asha_body; GetCourses; PostEnquiries asha_body] fresh_world).
  exact ids_ok_fresh.
Defined.

Lemma enquiries_accumulate_witness :
  exists c',
    db (snd (serve_all simple_email
               [PostEnquiries asha_body; PostEnquiries bad_email_body; PostEnquiries asha_body]
               fresh_world)) = Some c'
    /\ length (coll_docs c' "enquiry") = 2.
Proof.
  destruct (enquiries_accumulate simple_email
              [PostEnquiries asha_body; PostEnquiries bad_email_body; PostEnquiries asha_body]
              fresh_world (empty_db "iil") (conj eq_refl eq_refl))
    as (c' & Hdb & Hlen & _).
  exists c'. split; [exact Hdb | exact Hlen].
Defined.

Lemma listings_nonempty_after_startup_witness :
  exists lc lt w2,
    snd (serve_all simple_email [PostEnquiries asha_body; GetTest]
           (snd (on_startup fresh_world))) = w2
    /\ list_courses w2 = (Return lc, w2) /\ items lc <> []
    /\ api_testimonials None w2 = (Return lt, w2) /\ items lt <> [].
Proof.
  apply (listings_nonempty_after_startup simple_email [PostEnquiries asha_body; GetTest]
           fresh_world (empty_db "iil")).
  split; reflexivity.
Defined.

Lemma collections_within_schema_witness :
  within_schema (snd (on_startup fresh_world))
  /\ within_schema (snd (serve_all simple_email [PostEnquiries asha_body] fresh_world))
  /\ (forall body names,
        fst (test_database fresh_world) = Return body ->
        body !! "collections" = Some (VList names) ->
        forall n, n ∈ names -> n ∈ schema_collections).
Proof.
  apply (collections_within_schema simple_email [PostEnquiries asha_body] fresh_world).
  exact within_schema_fresh.
Defined.
